(** * dynamodb-server: the /list and /deactivate handlers of server.go

    A shallow embedding of [server.go]: the [Server] and [Item] structs, the
    two HTTP handlers and the four helpers that talk to DynamoDB.  The
    handlers are Go procedures that mutate the receiver [*Server], call the
    DynamoDB client, write to the [http.ResponseWriter] and log.  They are
    embedded as functions in a state monad over a [World] that holds exactly
    those four things, with one extra outcome for a Go run-time panic.

    The Go packages the file imports (net/http, encoding/json, the AWS SDK)
    are not part of the repository.  Each library function the handlers call
    is given a small executable model in the module that bears the package's
    name, with a comment that says what was kept of it. *)

From Stdlib Require Import List Bool NArith Arith Lia.
From Stdlib.Strings Require Import String Ascii Byte.
Import ListNotations.
Open Scope string_scope.

Set Implicit Arguments.

(** ** Go values *)

(** [[]byte].  A nil slice and an empty slice are both the empty list; where
    Go tells them apart (JSON [null] against [[]]) the slice is an [option]. *)
Definition bytes := list byte.

(** A Go [error] value: [None] is [nil], [Some e] an error whose [Error()]
    text is [e]. *)
Definition error := option string.

Definition bytes_eqb (a b : bytes) : bool :=
  if list_eq_dec Byte.byte_eq_dec a b then true else false.

(** Entry is a direct map of the entity in the dynamoDB table. *)
Record Item := {
  Index : bytes;
  Name : string;
  Users : list string;
  Active : bool
}.

(** [Item{}] *)
Definition zeroItem : Item :=
  {| Index := []; Name := ""; Users := []; Active := false |}.

Definition set_Active (b : bool) (it : Item) : Item :=
  {| Index := Index it; Name := Name it; Users := Users it; Active := b |}.

(** ** encoding/base64, as encoding/json uses it for [[]byte] *)
Module base64.

(** The standard alphabet: the 6-bit value of a character. *)
Definition decodeMap (c : ascii) : option N :=
  let n := N_of_ascii c in
  (if (65 <=? n) && (n <=? 90) then Some (n - 65)
  else if (97 <=? n) && (n <=? 122) then Some (n - 71)
  else if (48 <=? n) && (n <=? 57) then Some (n + 4)
  else if n =? 43 then Some 62
  else if n =? 47 then Some 63
  else None)%N.

Definition isPad (c : ascii) : bool := Ascii.eqb c "="%char.

(** The decoder skips carriage returns and line feeds wherever they are. *)
Definition isNewline (c : ascii) : bool :=
  Ascii.eqb c "010"%char || Ascii.eqb c "013"%char.

Definition byteOf (n : N) : byte :=
  match Byte.of_N (n mod 256) with Some b => b | None => x00 end.

(** The three bytes held by four 6-bit values. *)
Definition quantum (a b c d : N) : N :=
  (N.lor (N.lor (N.shiftl a 18) (N.shiftl b 12)) (N.lor (N.shiftl c 6) d))%N.

Definition out0 (v : N) : byte := byteOf (N.shiftr v 16).
Definition out1 (v : N) : byte := byteOf (N.shiftr v 8).
Definition out2 (v : N) : byte := byteOf v.

(** Quanta of four characters; only the last may be padded, and an
    incomplete quantum is corrupt input (StdEncoding pads). *)
Fixpoint decodeQuanta (src : list ascii) : option bytes :=
  match src with
  | [] => Some []
  | a :: b :: c :: d :: rest =>
      match decodeMap a, decodeMap b with
      | Some va, Some vb =>
          if isPad c then
            if isPad d then
              match rest with
              | [] => Some [out0 (quantum va vb 0 0)]
              | _ :: _ => None
              end
            else None
          else
            match decodeMap c with
            | Some vc =>
                if isPad d then
                  match rest with
                  | [] => let v := quantum va vb vc 0 in Some [out0 v; out1 v]
                  | _ :: _ => None
                  end
                else
                  match decodeMap d with
                  | Some vd =>
                      let v := quantum va vb vc vd in
                      match decodeQuanta rest with
                      | Some tl => Some (out0 v :: out1 v :: out2 v :: tl)
                      | None => None
                      end
                  | None => None
                  end
            | None => None
            end
      | _, _ => None
      end
  | _ => None
  end.

(** [base64.StdEncoding.Decode]: [None] is a CorruptInputError. *)
Definition StdEncoding_Decode (s : string) : option bytes :=
  decodeQuanta (filter (fun c => negb (isNewline c)) (list_ascii_of_string s)).

End base64.

(** ** encoding/json

    JSON documents are kept as trees: the handlers only build documents and
    hand them on, so the text of a document (indentation, string escapes) is
    left to the library.  A [[]byte] is a leaf of its own, which the library
    prints as a base64 string. *)
Module json.

#[local] Unset Elimination Schemes.
Inductive Value :=
| JNull
| JBool (b : bool)
| JString (s : string)
| JBytes (b : bytes)
| JArray (l : list Value)
| JObject (fields : list (string * Value)).
#[local] Set Elimination Schemes.

(** [json.Marshal] of a Go string; it has no error case. *)
Definition Marshal_string (s : string) : Value * error := (JString s, None).

(** [json.Unmarshal(data, &b)] for [var b []byte], [b] nil before the call:
    a JSON string is base64-decoded into [b], [null] leaves [b] alone, any
    other document is a type error.  On an error [b] keeps its value. *)
Definition Unmarshal_bytes (data : Value) : bytes * error :=
  match data with
  | JString s =>
      match base64.StdEncoding_Decode s with
      | Some b => (b, None)
      | None => ([], Some "illegal base64 data")
      end
  | JNull => ([], None)
  | _ => ([], Some "json: cannot unmarshal into Go value of type []uint8")
  end.

(** The document of an [Item]: exported fields in declaration order under
    their Go names, a nil slice as [null]. *)
Definition ofItem (it : Item) : Value :=
  JObject [ ("Index", match Index it with [] => JNull | b => JBytes b end);
            ("Name", JString (Name it));
            ("Users", match Users it with [] => JNull | u => JArray (map JString u) end);
            ("Active", JBool (Active it)) ].

(** [json.MarshalIndent(v, "", "    ")] for [v Item]; no field of [Item]
    can make it fail. *)
Definition MarshalIndent_Item (it : Item) : Value * error := (ofItem it, None).

(** [json.MarshalIndent(v, "", "    ")] for [v []Item]: a nil slice is
    [null], any other slice an array. *)
Definition MarshalIndent_Items (v : option (list Item)) : Value * error :=
  match v with
  | None => (JNull, None)
  | Some l => (JArray (map ofItem l), None)
  end.

End json.

(** ** aws-sdk-go: dynamodb/expression *)
Module expression.

(** [expression.Value(v)] for the two Go types the server passes. *)
Inductive OperandValue :=
| ValueS (s : string)
| ValueBOOL (b : bool).

(** A [ConditionBuilder]: its zero value is the unset condition;
    [Name(n).Equal(Value(v))] and [c.And(d)] are the two the server builds. *)
Inductive ConditionBuilder :=
| unsetCond
| Equal (name : string) (v : OperandValue)
| And (left right : ConditionBuilder).

(** A built [Expression].  The library prints a condition as text over
    placeholders ([#0 = :0]) with two maps that resolve them; here the
    condition tree stands for the text with its placeholders resolved. *)
Record Expression := {
  Filter : option ConditionBuilder;
  Projection : option (list string)
}.

Fixpoint isSet (c : ConditionBuilder) : bool :=
  match c with
  | unsetCond => false
  | Equal _ _ => true
  | And l r => isSet l && isSet r
  end.

(** [NewBuilder().WithFilter(filt).WithProjection(proj).Build()]: an unset
    condition is an UnsetParameterError and the zero [Expression]. *)
Definition Build (filt : ConditionBuilder) (proj : list string) : Expression * error :=
  if isSet filt
  then ({| Filter := Some filt; Projection := Some proj |}, None)
  else ({| Filter := None; Projection := None |},
        Some "unset parameter: ConditionBuilder").

End expression.

(** ** aws-sdk-go: dynamodb and dynamodbattribute

    The table service, kept as far as the server can observe it.  A stored
    row is seen by the server only through [dynamodbattribute], which decodes
    its attribute map into an [Item]; so an attribute map is represented by
    what that decoder makes of it: the fields it fills in a zero [Item] and
    the error it reports, if any. *)
Module dynamodb.

Record AttributeMap := {
  decoded : Item;
  decodeError : error
}.

(** A table: primary key [index] (binary) and attributes of each row, in the
    order a scan returns them. *)
Definition Table := list (bytes * AttributeMap).

(** The tables of the account, by name. *)
Definition Tables := list (string * Table).

Record ScanInput := {
  FilterExpression : option expression.ConditionBuilder;
  ProjectionExpression : option (list string);
  ScanTableName : string
}.

Record ScanOutput := { Items : list AttributeMap }.

Record GetItemInput := {
  GetTableName : string;
  GetKey : bytes
}.

(** [GetItemOutput.Item] is nil when the key is not in the table. *)
Record GetItemOutput := { GetItem_Item : option AttributeMap }.

(** The server's one update: [set active = :active] with [:active] a BOOL,
    [ReturnValues] being [ALL_NEW]. *)
Record UpdateItemInput := {
  UpdateTableName : string;
  UpdateKey : bytes;
  UpdateActive : bool
}.

Record UpdateItemOutput := { Attributes : option AttributeMap }.

(** A call the client sends to the service. *)
Inductive Call :=
| CallScan (input : ScanInput)
| CallGetItem (input : GetItemInput)
| CallUpdateItem (input : UpdateItemInput).

Definition isUpdate (c : Call) : bool :=
  match c with CallUpdateItem _ => true | _ => false end.

Fixpoint findTable (ts : Tables) (n : string) : option Table :=
  match ts with
  | [] => None
  | (m, t) :: rest => if String.eqb m n then Some t else findTable rest n
  end.

Fixpoint putTable (ts : Tables) (n : string) (t : Table) : Tables :=
  match ts with
  | [] => []
  | (m, t0) :: rest =>
      if String.eqb m n then (m, t) :: rest else (m, t0) :: putTable rest n t
  end.

Fixpoint findRow (t : Table) (k : bytes) : option AttributeMap :=
  match t with
  | [] => None
  | (k0, m) :: rest => if bytes_eqb k0 k then Some m else findRow rest k
  end.

(** The condition on a row, read on the attributes as decoded: an attribute
    equals a value of its own type. *)
Fixpoint holds (c : expression.ConditionBuilder) (it : Item) : bool :=
  match c with
  | expression.unsetCond => true
  | expression.Equal n (expression.ValueS s) =>
      String.eqb n "name" && String.eqb (Name it) s
  | expression.Equal n (expression.ValueBOOL b) =>
      String.eqb n "active" && Bool.eqb (Active it) b
  | expression.And l r => holds l it && holds r it
  end.

Definition scanRows (f : option expression.ConditionBuilder) (t : Table)
  : list AttributeMap :=
  map snd (filter (fun row =>
                     match f with
                     | None => true
                     | Some c => holds c (decoded (snd row))
                     end) t).

Definition setActive (b : bool) (m : AttributeMap) : AttributeMap :=
  {| decoded := set_Active b (decoded m); decodeError := decodeError m |}.

(** The row an update creates when the key is new: the key and the one
    attribute that was set. *)
Definition newRow (k : bytes) (b : bool) : AttributeMap :=
  {| decoded := {| Index := k; Name := ""; Users := []; Active := b |};
     decodeError := None |}.

(** [set active = b] on the row with key [k]; a new row when there is none. *)
Fixpoint updateRow (t : Table) (k : bytes) (b : bool) : Table * AttributeMap :=
  match t with
  | [] => ([(k, newRow k b)], newRow k b)
  | (k0, m) :: rest =>
      if bytes_eqb k0 k then ((k0, setActive b m) :: rest, setActive b m)
      else let '(rest', m') := updateRow rest k b in ((k0, m) :: rest', m')
  end.

End dynamodb.

Module dynamodbattribute.

(** [UnmarshalMap(m, &item)] with [item] a zero [Item]: a nil map decodes
    nothing and is no error. *)
Definition UnmarshalMap (m : option dynamodb.AttributeMap) : Item * error :=
  match m with
  | None => (zeroItem, None)
  | Some a => (dynamodb.decoded a, dynamodb.decodeError a)
  end.

(** Elements are decoded in order and the first error stops the decoder,
    leaving the slice as long as the elements it touched. *)
Fixpoint decodeList (l : list dynamodb.AttributeMap) : list Item * error :=
  match l with
  | [] => ([], None)
  | m :: rest =>
      match dynamodb.decodeError m with
      | Some e => ([dynamodb.decoded m], Some e)
      | None => let '(its, err) := decodeList rest in (dynamodb.decoded m :: its, err)
      end
  end.

(** [UnmarshalListOfMaps(l, &obj)]: an empty [l] is not decoded at all, so
    [obj] keeps the value it had. *)
Definition UnmarshalListOfMaps (l : list dynamodb.AttributeMap) (obj : option (list Item))
  : option (list Item) * error :=
  match l with
  | [] => (obj, None)
  | _ :: _ => let '(its, err) := decodeList l in (Some its, err)
  end.

End dynamodbattribute.

(** ** net/http *)
Module http.

Record Request := {
  Method : string;
  Path : string;                     (* r.URL.Path *)
  Query : list (string * string)     (* r.URL.Query(), in the order of the URL *)
}.

(** [Values.Get]: the first value of the key, the empty string without one. *)
Fixpoint Get (q : list (string * string)) (key : string) : string :=
  match q with
  | [] => ""
  | (k, v) :: rest => if String.eqb k key then v else Get rest key
  end.

(** A piece of a response body: plain text, or the text of a JSON document
    (what [string(b)] is for the bytes [b] that [json.MarshalIndent] made). *)
Inductive Chunk :=
| Text (s : string)
| Document (v : json.Value).

(** What a handler has done to its [ResponseWriter]: the headers it set, the
    status it wrote ([None] while no header has been written) and the body. *)
Record ResponseWriter := {
  Header : list (string * string);
  statusCode : option nat;
  body : list Chunk
}.

Definition newResponseWriter : ResponseWriter :=
  {| Header := []; statusCode := None; body := [] |}.

Definition StatusOK := 200.
Definition StatusNotFound := 404.

(** The status the client receives: a handler that returns without writing a
    header has answered 200. *)
Definition status (w : ResponseWriter) : nat :=
  match statusCode w with Some c => c | None => StatusOK end.

(** [w.Write]: the first write sends the header with status 200. *)
Definition Write (w : ResponseWriter) (cs : list Chunk) : ResponseWriter :=
  {| Header := Header w;
     statusCode := Some (status w);
     body := body w ++ cs |}.

(** [http.Error(w, msg, code)]: a plain-text reply, the message on a line. *)
Definition Error (w : ResponseWriter) (msg : string) (code : nat) : ResponseWriter :=
  {| Header := ("Content-Type", "text/plain; charset=utf-8")
               :: ("X-Content-Type-Options", "nosniff") :: Header w;
     statusCode := Some (match statusCode w with Some c => c | None => code end);
     body := body w ++ [Text (msg ++ String "010"%char "")] |}.

End http.

(** ** The server *)

(** [session.Session], as [main] configures it. *)
Record Session := {
  Region : string;
  Endpoint : string
}.

(** Server provides shared resources for all calls to the server.  The Go
    field [Name] is [ServerName] here, [Name] being the field of [Item]. *)
Record Server := {
  ServerName : string;
  ASess : Session;
  (* Params passed in through request *)
  tableName : string;
  name : string;
  status : string;   (* active or inactive *)
  active : bool;     (* true or false *)
  index : bytes
}.

Definition set_tableName (v : string) (s : Server) : Server :=
  {| ServerName := ServerName s; ASess := ASess s; tableName := v; name := name s;
     status := status s; active := active s; index := index s |}.
Definition set_name (v : string) (s : Server) : Server :=
  {| ServerName := ServerName s; ASess := ASess s; tableName := tableName s; name := v;
     status := status s; active := active s; index := index s |}.
Definition set_status (v : string) (s : Server) : Server :=
  {| ServerName := ServerName s; ASess := ASess s; tableName := tableName s; name := name s;
     status := v; active := active s; index := index s |}.
Definition set_active (v : bool) (s : Server) : Server :=
  {| ServerName := ServerName s; ASess := ASess s; tableName := tableName s; name := name s;
     status := status s; active := v; index := index s |}.
Definition set_index (v : bytes) (s : Server) : Server :=
  {| ServerName := ServerName s; ASess := ASess s; tableName := tableName s; name := name s;
     status := status s; active := active s; index := v |}.

(** What the process writes to its logs and to standard output. *)
Inductive LogEntry :=
| LogrusError (msg : string) (err : string)  (* WithFields{"error": err}.Error(msg) *)
| LogPrint (text : string)                   (* log.Print, log.Println of a string *)
| LogPrintItem (it : Item)                   (* log.Println of an Item *)
| FmtPrint (text : string).                  (* fmt.Print *)

(** Everything a handler can read or change: the receiver [*Server], which
    [main] creates once and binds to both handlers; the tables behind the
    session; the transport errors the next calls will meet ([None]: the call
    reaches the service); the calls sent and the log lines written so far,
    oldest first; and the [ResponseWriter] of the request being served. *)
Record World := {
  srv : Server;
  tables : dynamodb.Tables;
  network : list error;
  calls : list dynamodb.Call;
  logs : list LogEntry;
  w : http.ResponseWriter
}.

(** ** Go procedures: state, and a result or a panic *)

Inductive Outcome (A : Type) :=
| Done (a : A)
| Panic (msg : string).
Arguments Panic {A} msg.

Definition Go (A : Type) := World -> Outcome A * World.

Definition ret {A} (a : A) : Go A := fun st => (Done a, st).

Definition bind {A B} (m : Go A) (k : A -> Go B) : Go B :=
  fun st => match m st with
           | (Done a, st') => k a st'
           | (Panic msg, st') => (Panic msg, st')
           end.

Definition panic {A} (msg : string) : Go A := fun st => (Panic msg, st).

Declare Scope go_scope.
Delimit Scope go_scope with go.
Notation "x <- m ;; k" := (bind m (fun x => k))
  (at level 100, m at next level, right associativity) : go_scope.
Notation "' p <- m ;; k" := (bind m (fun x => match x with p => k end))
  (at level 100, p pattern, m at next level, right associativity) : go_scope.
Notation "m ;; k" := (bind m (fun _ => k))
  (at level 100, right associativity) : go_scope.
Open Scope go_scope.

Definition getServer : Go Server := fun st => (Done (srv st), st).

Definition modifyServer (f : Server -> Server) : Go unit :=
  fun st => (Done tt,
            {| srv := f (srv st); tables := tables st; network := network st;
               calls := calls st; logs := logs st; w := w st |}).

Definition getTables : Go dynamodb.Tables := fun st => (Done (tables st), st).

Definition setTables (ts : dynamodb.Tables) : Go unit :=
  fun st => (Done tt,
            {| srv := srv st; tables := ts; network := network st;
               calls := calls st; logs := logs st; w := w st |}).

Definition log (e : LogEntry) : Go unit :=
  fun st => (Done tt,
            {| srv := srv st; tables := tables st; network := network st;
               calls := calls st; logs := logs st ++ [e]; w := w st |}).

Definition modifyWriter (f : http.ResponseWriter -> http.ResponseWriter) : Go unit :=
  fun st => (Done tt,
            {| srv := srv st; tables := tables st; network := network st;
               calls := calls st; logs := logs st; w := f (w st) |}).

Definition nilDereference : string :=
  "runtime error: invalid memory address or nil pointer dereference".

(** [err.Error()]: calling the method on a nil [error] is a nil dereference. *)
Definition Error (err : error) : Go string :=
  match err with
  | Some e => ret e
  | None => panic nilDereference
  end.

(** [logrus.WithFields(logrus.Fields{"error": err.Error()}).Error(msg)] *)
Definition logrusError (err : error) (msg : string) : Go unit :=
  e <- Error err;;
  log (LogrusError msg e).

(** [fmt.Fprint(w, text, string(doc))]: both operands are strings, so nothing
    is put between them. *)
Definition Fprint (text : string) (doc : json.Value) : Go unit :=
  modifyWriter (fun w => http.Write w [http.Text text; http.Document doc]).

(** [fmt.Fprint(w, string(doc))] *)
Definition Fprint1 (doc : json.Value) : Go unit :=
  modifyWriter (fun w => http.Write w [http.Document doc]).

Definition httpError (msg : string) (code : nat) : Go unit :=
  modifyWriter (fun w => http.Error w msg code).

(** ** The DynamoDB client, [dynamodb.New(s.ASess)]

    A call is sent, which records it and uses up one transport outcome; a
    call the transport fails returns the error and an empty output struct
    (the SDK allocates the output before it sends).  A table that does not
    exist is the service's ResourceNotFoundException. *)
Definition send (c : dynamodb.Call) : Go error :=
  fun st => (Done (hd None (network st)),
            {| srv := srv st; tables := tables st; network := tl (network st);
               calls := calls st ++ [c]; logs := logs st; w := w st |}).

Definition ResourceNotFound : string := "ResourceNotFoundException".

Definition Scan (input : dynamodb.ScanInput) : Go (dynamodb.ScanOutput * error) :=
  e <- send (dynamodb.CallScan input);;
  match e with
  | Some msg => ret ({| dynamodb.Items := [] |}, Some msg)
  | None =>
      ts <- getTables;;
      match dynamodb.findTable ts (dynamodb.ScanTableName input) with
      | None => ret ({| dynamodb.Items := [] |}, Some ResourceNotFound)
      | Some t =>
          ret ({| dynamodb.Items :=
                    dynamodb.scanRows (dynamodb.FilterExpression input) t |}, None)
      end
  end.

Definition GetItem (input : dynamodb.GetItemInput) : Go (dynamodb.GetItemOutput * error) :=
  e <- send (dynamodb.CallGetItem input);;
  match e with
  | Some msg => ret ({| dynamodb.GetItem_Item := None |}, Some msg)
  | None =>
      ts <- getTables;;
      match dynamodb.findTable ts (dynamodb.GetTableName input) with
      | None => ret ({| dynamodb.GetItem_Item := None |}, Some ResourceNotFound)
      | Some t =>
          ret ({| dynamodb.GetItem_Item :=
                    dynamodb.findRow t (dynamodb.GetKey input) |}, None)
      end
  end.

Definition UpdateItem (input : dynamodb.UpdateItemInput)
  : Go (dynamodb.UpdateItemOutput * error) :=
  e <- send (dynamodb.CallUpdateItem input);;
  match e with
  | Some msg => ret ({| dynamodb.Attributes := None |}, Some msg)
  | None =>
      ts <- getTables;;
      match dynamodb.findTable ts (dynamodb.UpdateTableName input) with
      | None => ret ({| dynamodb.Attributes := None |}, Some ResourceNotFound)
      | Some t =>
          let '(t', m) := dynamodb.updateRow t (dynamodb.UpdateKey input)
                            (dynamodb.UpdateActive input) in
          setTables (dynamodb.putTable ts (dynamodb.UpdateTableName input) t');;
          ret ({| dynamodb.Attributes := Some m |}, None)
      end
  end.

(** ** server.go *)

(** DynamoDBList returns all contents of table as json. *)
Definition DynamoDBList : Go (option (list Item) * error) :=
  s <- getServer;;
  (* Scan dynamodb client by requested table name *)
  let input := {| dynamodb.FilterExpression := None;
                  dynamodb.ProjectionExpression := None;
                  dynamodb.ScanTableName := tableName s |} in
  '(result, err) <- Scan input;;
  match err with
  | Some _ =>
      logrusError err "Failed to scan DynamoDB";;
      ret (None, err)
  | None =>
      (* Marshal dynamodb contents *)
      let obj := Some [] in
      let '(obj, err) := dynamodbattribute.UnmarshalListOfMaps (dynamodb.Items result) obj in
      match err with
      | Some _ =>
          logrusError err "Failed to unmarshal DynamoDB record";;
          ret (None, err)
      | None => ret (obj, None)
      end
  end.

(** The condition filter of DynamoDBQuery, for the name, status and active
    fields of the server at that point. *)
Definition buildFilter (s : Server) : expression.ConditionBuilder :=
  if negb (name s =? "") && negb (status s =? "") then
    expression.And
      (expression.Equal "name" (expression.ValueS (name s)))
      (expression.Equal "active" (expression.ValueBOOL (active s)))
  else
    (* Build the filter for either name or active status *)
    if negb (name s =? "") && (status s =? "") then
      expression.Equal "name" (expression.ValueS (name s))       (* Only query by name *)
    else if (name s =? "") && negb (status s =? "") then
      expression.Equal "active" (expression.ValueBOOL (active s)) (* Only Query by active status *)
    else expression.unsetCond.

(** DynamoDBQuery returns contents of table by specified name or active
    status and performs a query returning json output. *)
Definition DynamoDBQuery : Go (option (list Item) * error) :=
  s <- getServer;;
  (* set active true or false if needed *)
  (if negb (status s =? "") then
     if status s =? "active" then modifyServer (set_active true)
     else if status s =? "inactive" then modifyServer (set_active false)
     else ret tt
   else ret tt);;
  s <- getServer;;
  (* Get all entries that match the filter(s) with all details *)
  let proj := ["index"; "name"; "users"; "active"] in
  (* Build the condition filter for name and active status *)
  let filt := buildFilter s in
  (* Use expression package to build *)
  let '(expr, err) := expression.Build filt proj in
  (match err with
   | Some _ => logrusError err "Got error building expression"
   | None => ret tt
   end);;
  (* build the query input parameters *)
  let params := {| dynamodb.FilterExpression := expression.Filter expr;
                   dynamodb.ProjectionExpression := expression.Projection expr;
                   dynamodb.ScanTableName := tableName s |} in
  let obj := Some [] in
  (* make the DynamoDB Scan API call *)
  '(result, err) <- Scan params;;
  (match err with
   | Some _ => logrusError err "Query API call failed"
   | None => ret tt
   end);;
  (* unmarshalling *)
  let '(obj, err) := dynamodbattribute.UnmarshalListOfMaps (dynamodb.Items result) obj in
  match err with
  | Some _ =>
      logrusError err "Failed to unmarshal query output";;
      ret (None, err)
  | None => ret (obj, None)
  end.

(** ListHandler reaches out to DynamoDBList and DynamoDBQuery via the /list
    endpoint. *)
Definition ListHandler (r : http.Request) : Go unit :=
  if negb (http.Path r =? "/list") then
    httpError "404 not found." http.StatusNotFound
  else
  (* we don't support anything except GET to this endpoint *)
  if negb (http.Method r =? "GET") then
    httpError "404 not found, method not supported." http.StatusNotFound
  else
  (* reset current server params *)
  modifyServer (set_tableName "");;
  modifyServer (set_name "");;
  modifyServer (set_status "");;
  modifyServer (set_active false);;
  (* access required param1, tableName *)
  let param1 := http.Get (http.Query r) "tableName" in
  modifyServer (set_tableName param1);;
  (* access optional param2, name *)
  let param2 := http.Get (http.Query r) "name" in
  (if negb (param2 =? "") then modifyServer (set_name param2) else ret tt);;
  (* access optional param3, active status *)
  let param3 := http.Get (http.Query r) "status" in
  (* set active status based on active/inactive keywords, no filter for "both" or "all" *)
  (if (param3 =? "active") || (param3 =? "inactive")
   then modifyServer (set_status param3) else ret tt);;
  (* list or query request *)
  s <- getServer;;
  '(resp, _) <- (if negb (name s =? "") || negb (status s =? "")
                 then DynamoDBQuery
                 else DynamoDBList);;  (* otherwise just list table contents *)
  (* marshal response and make it pretty *)
  let '(respJSON, err) := json.MarshalIndent_Items resp in
  match err with
  | Some _ => logrusError err "Got error marshalling list response"
  | None =>
      (* Display the results *)
      Fprint1 respJSON
  end.

(** DyanmoDBGetItem is a helper method that returns the existing item on the
    table based on index. *)
Definition DynamoDBGetItem : Go Item :=
  s <- getServer;;
  '(result, err) <- GetItem {| dynamodb.GetTableName := tableName s;
                               dynamodb.GetKey := index s |};;
  (match err with
   | Some _ => logrusError err "Failed to call DynamoDBGetItem"
   | None => ret tt
   end);;
  let '(item, err) := dynamodbattribute.UnmarshalMap (dynamodb.GetItem_Item result) in
  (match err with
   | Some _ => logrusError err "Failed to unmarshal GetItem response"
   | None => ret tt
   end);;
  ret item.

(** DynamoDBDeactivate deactivates the entry with the specified name in the
    table. *)
Definition DynamoDBDeactivate : Go Item :=
  log (LogPrint "Entering DynamoDBDeactivate");;
  s <- getServer;;
  (* Build the updateItem input based on active as an attribute value *)
  let input := {| dynamodb.UpdateTableName := tableName s;
                  dynamodb.UpdateKey := index s;
                  dynamodb.UpdateActive := false |} in  (* set active status to false *)
  '(resp, err) <- UpdateItem input;;
  match err with
  | Some _ =>
      logrusError err "Failed to call UpdateItem";;
      ret zeroItem
  | None =>
      let '(result, err) := dynamodbattribute.UnmarshalMap (dynamodb.Attributes resp) in
      match err with
      | Some _ =>
          logrusError err "Failed to unmarshal in DynamoDBDeactivate";;
          ret result
      | None => ret result
      end
  end.

Definition alreadyInactive : string :=
  "The deactivate request failed: Specified entry is already inactive " ++ String "010"%char "".

Definition deactivated : string :=
  "Successfully deactivated the specified entry, setting active status to false: "
  ++ String "010"%char "".

(** DeactivateHandler reaches out to DynamoDBDeactivate via the /deactivate
    endpoint. *)
Definition DeactivateHandler (r : http.Request) : Go unit :=
  if negb (http.Path r =? "/deactivate") then
    httpError "404 not found." http.StatusNotFound
  else
  (* we don't support anything except GET to this endpoint *)
  if negb (http.Method r =? "POST") then
    httpError "404 not found, method not supported." http.StatusNotFound
  else
  (* Reset current server params *)
  modifyServer (set_tableName "");;
  modifyServer (set_index []);;
  (* Access required param1, tableName *)
  let param1 := http.Get (http.Query r) "tableName" in
  modifyServer (set_tableName param1);;
  (* access param2, index *)
  let param2 := http.Get (http.Query r) "index" in
  log (LogPrint param2);;
  if negb (param2 =? "") then
    (* Convert the string index that is passed in into a byte *)
    let '(indexJson, err) := json.Marshal_string param2 in
    match err with
    | Some _ => logrusError err "Failed to marshal index param"
    | None =>
        let '(indexByte, err6) := json.Unmarshal_bytes indexJson in
        match err6 with
        | Some _ => logrusError err "Failed to unmarshal index param"
        | None =>
            (* Set index for all calls to server *)
            modifyServer (set_index indexByte);;
            (* Make a check for whether the entry is already inactive *)
            currEntry <- DynamoDBGetItem;;
            if negb (Active currEntry) then
              log (LogPrint "Current entry is already inactive.");;
              (* Get and format the current response *)
              let '(currEntryJSON, err) := json.MarshalIndent_Item currEntry in
              match err with
              | Some _ => logrusError err "Failed to marshal in DynamoDBGetItem"
              | None => Fprint alreadyInactive currEntryJSON
              end
            else
              log (FmtPrint "Current entry is active.");;
              (* Make the call to deactivate *)
              resp <- DynamoDBDeactivate;;
              log (LogPrintItem resp);;
              (* Get and format the deactivated entry *)
              let '(respJSON, err) := json.MarshalIndent_Item resp in
              match err with
              | Some _ => logrusError err "Failed to marshal output for the deactivate entry"
              | None => Fprint deactivated respJSON
              end
        end
    end
  else ret tt.

(** ** main.go: the two routes *)

(** [http.HandleFunc("/list", srv.ListHandler)] and
    [http.HandleFunc("/deactivate", srv.DeactivateHandler)]: both handlers
    are methods of the one [srv] that [main] creates. *)
Inductive Route := RouteList | RouteDeactivate.

Definition pattern (e : Route) : string :=
  match e with RouteList => "/list" | RouteDeactivate => "/deactivate" end.

Definition verb (e : Route) : string :=
  match e with RouteList => "GET" | RouteDeactivate => "POST" end.

Definition handler (e : Route) : http.Request -> Go unit :=
  match e with RouteList => ListHandler | RouteDeactivate => DeactivateHandler end.

(** A request is served with a [ResponseWriter] of its own; the rest of the
    world is what the requests before it left. *)
Definition freshWriter (st : World) : World :=
  {| srv := srv st; tables := tables st; network := network st;
     calls := calls st; logs := logs st; w := http.newResponseWriter |}.

Definition serve (e : Route) (r : http.Request) (st : World) : Outcome unit * World :=
  handler e r (freshWriter st).

(** The updates among the calls sent. *)
Definition updates (cs : list dynamodb.Call) : list dynamodb.Call :=
  filter dynamodb.isUpdate cs.

(** Whether the request is the one the route's handler accepts. *)
Definition accepted (e : Route) (r : http.Request) : bool :=
  (http.Path r =? pattern e) && (http.Method r =? verb e).


(** ** The scenario of the specification's section 8

    A table [T] with a row of key [A] (the byte 0x41), name [foo], active,
    and a row of key [B], name [bar], inactive. *)
Definition rowA : Item :=
  {| Index := ["A"%byte]; Name := "foo"; Users := []; Active := true |}.

Definition rowB : Item :=
  {| Index := ["B"%byte]; Name := "bar"; Users := []; Active := false |}.

Definition wellFormed (it : Item) : dynamodb.AttributeMap :=
  {| dynamodb.decoded := it; dynamodb.decodeError := None |}.

Definition tableT : dynamodb.Table :=
  [ (["A"%byte], wellFormed rowA); (["B"%byte], wellFormed rowB) ].

Definition devSession : Session :=
  {| Region := "us-west-2"; Endpoint := "http://localhost:8000" |}.

(** [server.Server{}] with the session of [main]. *)
Definition newServer : Server :=
  {| ServerName := ""; ASess := devSession; tableName := ""; name := "";
     status := ""; active := false; index := [] |}.

Definition world0 : World :=
  {| srv := newServer; tables := [("T", tableT)]; network := [];
     calls := []; logs := []; w := http.newResponseWriter |}.

Definition request (m p : string) (q : list (string * string)) : http.Request :=
  {| http.Method := m; http.Path := p; http.Query := q |}.

(** The JSON round trip of DeactivateHandler (lines 288 and 296) on the
    index parameter: the bytes it yields and the error of the second step. *)
Definition indexBytes (param2 : string) : bytes * error :=
  json.Unmarshal_bytes (fst (json.Marshal_string param2)).

(** The world in which DeactivateHandler calls DynamoDBGetItem when it serves
    [r] from [st] and the index parameter decoded to [key]: the table name
    and the key are on the server and the parameter is in the log. *)
Definition atLookup (r : http.Request) (key : bytes) (st : World) : World :=
  {| srv := set_index key
              (set_tableName (http.Get (http.Query r) "tableName")
                 (set_index [] (set_tableName "" (srv st))));
     tables := tables st; network := network st; calls := calls st;
     logs := logs st ++ [LogPrint (http.Get (http.Query r) "index")];
     w := http.newResponseWriter |}.

(** The call DynamoDBGetItem sends for the request. *)
Definition lookupCall (r : http.Request) (key : bytes) : dynamodb.Call :=
  dynamodb.CallGetItem {| dynamodb.GetTableName := http.Get (http.Query r) "tableName";
                          dynamodb.GetKey := key |}.

(** The call DynamoDBDeactivate sends for the request. *)
Definition updateCall (r : http.Request) (key : bytes) : dynamodb.Call :=
  dynamodb.CallUpdateItem {| dynamodb.UpdateTableName := http.Get (http.Query r) "tableName";
                             dynamodb.UpdateKey := key;
                             dynamodb.UpdateActive := false |}.

(** The error the client's Scan returns in [st] for the table [tn]: the
    transport's, or the service's when the table does not exist. *)
Definition scanError (st : World) (tn : string) : error :=
  match hd None (network st) with
  | Some e => Some e
  | None =>
      match dynamodb.findTable (tables st) tn with
      | None => Some ResourceNotFound
      | Some _ => None
      end
  end.

(** ** The Query Builder of the specification (section 4.2)

    Written from the specification's words, to be compared with what
    ListHandler and DynamoDBQuery send. *)

(** A name is present when the parameter is not empty. *)
Definition optName (param : string) : option string :=
  if param =? "" then None else Some param.

(** A status is present when the parameter is exactly [active] or
    [inactive]. *)
Definition optStatus (param : string) : option string :=
  if (param =? "active") || (param =? "inactive") then Some param else None.

Definition QueryBuilder (name status : option string)
  : option expression.ConditionBuilder :=
  match name, status with
  | Some n, Some s =>
      Some (expression.And
              (expression.Equal "name" (expression.ValueS n))
              (expression.Equal "active" (expression.ValueBOOL (s =? "active"))))
  | Some n, None => Some (expression.Equal "name" (expression.ValueS n))
  | None, Some s => Some (expression.Equal "active" (expression.ValueBOOL (s =? "active")))
  | None, None => None
  end.

(** The fixed projection of a filtered scan; a full scan has none. *)
Definition projectionFor (predicate : option expression.ConditionBuilder)
  : option (list string) :=
  match predicate with
  | Some _ => Some ["index"; "name"; "users"; "active"]
  | None => None
  end.

(** The scan the specification prescribes for a /list request. *)
Definition specScan (r : http.Request) : dynamodb.ScanInput :=
  let predicate := QueryBuilder (optName (http.Get (http.Query r) "name"))
                     (optStatus (http.Get (http.Query r) "status")) in
  {| dynamodb.FilterExpression := predicate;
     dynamodb.ProjectionExpression := projectionFor predicate;
     dynamodb.ScanTableName := http.Get (http.Query r) "tableName" |}.

(** Whether a condition has a component on the [active] attribute. *)
Fixpoint onActive (c : expression.ConditionBuilder) : bool :=
  match c with
  | expression.unsetCond => false
  | expression.Equal n _ => n =? "active"
  | expression.And l r => onActive l || onActive r
  end.

(** The request without its [status] parameters. *)
Definition withoutStatus (r : http.Request) : http.Request :=
  {| http.Method := http.Method r; http.Path := http.Path r;
     http.Query := filter (fun kv => negb (fst kv =? "status")) (http.Query r) |}.

(** [m] does not change the field (or fields) [f] of the shared server,
    however it ends. *)
Definition keeps {X A} (f : Server -> X) (m : Go A) : Prop :=
  forall st, f (srv (snd (m st))) = f (srv st).

(** ** Further notions used to describe the handlers *)

(** The error a GetItem or an UpdateItem on the table [tn] returns in [st]:
    the transport's, or the service's when the table does not exist. *)
Definition callError (st : World) (tn : string) : error :=
  match hd None (network st) with
  | Some e => Some e
  | None =>
      match dynamodb.findTable (tables st) tn with
      | None => Some ResourceNotFound
      | Some _ => None
      end
  end.

(** The attributes stored under a key of a table, if the table and the row
    exist. *)
Definition rowAt (ts : dynamodb.Tables) (tn : string) (k : bytes)
  : option dynamodb.AttributeMap :=
  match dynamodb.findTable ts tn with
  | Some t => dynamodb.findRow t k
  | None => None
  end.

(** The world after DeactivateHandler has printed that the entry is active,
    in which it calls DynamoDBDeactivate. *)
Definition atUpdate (st1 : World) : World :=
  {| srv := srv st1; tables := tables st1; network := network st1;
     calls := calls st1;
     logs := logs st1 ++ [FmtPrint "Current entry is active."];
     w := w st1 |}.

(** The world [st] with other transport outcomes for the calls to come. *)
Definition onNetwork (net : list error) (st : World) : World :=
  {| srv := srv st; tables := tables st; network := net;
     calls := calls st; logs := logs st; w := w st |}.

Definition requestError : string := "RequestError: send request failed".

(** The rows a Scan returns in [st]: the rows of the table that satisfy the
    filter, in the table's order; none when the call fails. *)
Definition scanItems (st : World) (input : dynamodb.ScanInput)
  : list dynamodb.AttributeMap :=
  match hd None (network st) with
  | Some _ => []
  | None =>
      match dynamodb.findTable (tables st) (dynamodb.ScanTableName input) with
      | None => []
      | Some t => dynamodb.scanRows (dynamodb.FilterExpression input) t
      end
  end.

(** What DynamoDBList and DynamoDBQuery make of the rows of a scan (lines
    60 to 68 and 119 to 135): the decoded slice, or nil and the error of the
    first row that does not decode. *)
Definition decodedRows (rows : list dynamodb.AttributeMap)
  : option (list Item) * error :=
  match dynamodbattribute.UnmarshalListOfMaps rows (Some []) with
  | (obj, None) => (obj, None)
  | (_, Some e) => (None, Some e)
  end.

(** The ScanInput DynamoDBQuery builds for the fields of the server (lines
    87 to 117). *)
Definition queryInput (s : Server) : dynamodb.ScanInput :=
  let expr := fst (expression.Build (buildFilter s) ["index"; "name"; "users"; "active"]) in
  {| dynamodb.FilterExpression := expression.Filter expr;
     dynamodb.ProjectionExpression := expression.Projection expr;
     dynamodb.ScanTableName := tableName s |}.

(** The Items of the rows of a table, in scan order. *)
Definition itemsOf (t : dynamodb.Table) : list Item :=
  map (fun row => dynamodb.decoded (snd row)) t.

Definition decodes (m : dynamodb.AttributeMap) : bool :=
  match dynamodb.decodeError m with None => true | Some _ => false end.

(** The entries a /list request asks for: those with its name, when the
    name parameter is not empty, and with the activity its status names,
    when the status parameter is [active] or [inactive]. *)
Definition selected (r : http.Request) (it : Item) : bool :=
  (if http.Get (http.Query r) "name" =? "" then true
   else Name it =? http.Get (http.Query r) "name")
  && (if (http.Get (http.Query r) "status" =? "active")
         || (http.Get (http.Query r) "status" =? "inactive")
      then Bool.eqb (Active it) (http.Get (http.Query r) "status" =? "active")
      else true).

(** A table with a row whose [users] attribute is a string: the decoder
    fills the fields it reaches and reports the mismatch. *)
Definition malformedRow : dynamodb.AttributeMap :=
  {| dynamodb.decoded := {| Index := ["C"%byte]; Name := ""; Users := []; Active := true |};
     dynamodb.decodeError := Some "UnmarshalTypeError: cannot unmarshal string into Go value of type []string" |}.

Definition tableV : dynamodb.Table :=
  [ (["A"%byte], wellFormed rowA); (["C"%byte], malformedRow) ].

Definition world1 : World :=
  {| srv := newServer; tables := [("T", tableT); ("V", tableV)]; network := [];
     calls := []; logs := []; w := http.newResponseWriter |}.

(** The world [st] with the server's fields changed by [g]. *)
Definition over (g : Server -> Server) (st : World) : World :=
  {| srv := g (srv st); tables := tables st; network := network st;
     calls := calls st; logs := logs st; w := w st |}.

(** What a run shows outside the server's own fields: how it ended, the
    tables, the transport outcomes left, the calls, the log and the
    response. *)
Definition observe {A} (res : Outcome A * World)
  : Outcome A * dynamodb.Tables * list error * list dynamodb.Call * list LogEntry
    * http.ResponseWriter :=
  (fst res, tables (snd res), network (snd res), calls (snd res), logs (snd res),
   w (snd res)).

(** Running [m] with the server's fields changed by [g] is running [m] and
    changing the fields afterwards, or is just running [m]: [m] reads
    nothing of what [g] sets before it has overwritten it. *)
Definition sim {A} (g : Server -> Server) (m : Go A) : Prop :=
  forall st,
    m (over g st) = (fst (m st), over g (snd (m st))) \/ m (over g st) = m st.

(** The request fields of the server, all set at once. *)
Definition leftover (tn n stt : string) (a : bool) (i : bytes) (s : Server) : Server :=
  set_tableName tn (set_name n (set_status stt (set_active a (set_index i s)))).

(** ** encoding/base64: the encoder

    encoding/json prints a [[]byte] (the Index of an Item) as the string
    [base64.StdEncoding.EncodeToString] makes of it. *)

(** The character of a 6-bit value in the standard alphabet. *)
Definition encodeStd (n : N) : ascii :=
  (if n <? 26 then ascii_of_N (n + 65)
   else if n <? 52 then ascii_of_N (n + 71)
   else if n <? 62 then ascii_of_N (n - 4)
   else if n =? 62 then "+"%char
   else "/"%char)%N.

(** [val>>k&0x3F] *)
Definition sextet (val k : N) : N := N.land (N.shiftr val k) 63.

(** [uint(a)<<16 | uint(b)<<8 | uint(c)] *)
Definition pack (a b c : N) : N :=
  N.lor (N.lor (N.shiftl a 16) (N.shiftl b 8)) c.

(** Three bytes give four characters; a remainder of one or two bytes gives
    two or three characters and padding. *)
Fixpoint encodeQuanta (src : bytes) : list ascii :=
  match src with
  | [] => []
  | [a] =>
      let val := pack (Byte.to_N a) 0 0 in
      [encodeStd (sextet val 18); encodeStd (sextet val 12); "="%char; "="%char]
  | [a; b] =>
      let val := pack (Byte.to_N a) (Byte.to_N b) 0 in
      [encodeStd (sextet val 18); encodeStd (sextet val 12);
       encodeStd (sextet val 6); "="%char]
  | a :: b :: c :: rest =>
      let val := pack (Byte.to_N a) (Byte.to_N b) (Byte.to_N c) in
      encodeStd (sextet val 18) :: encodeStd (sextet val 12)
        :: encodeStd (sextet val 6) :: encodeStd (sextet val 0) :: encodeQuanta rest
  end.

Definition StdEncoding_EncodeToString (b : bytes) : string :=
  string_of_list_ascii (encodeQuanta b).

(** What a 6-bit value must satisfy for the decoder to read its character
    back. *)
Definition readsBack (n : N) : bool :=
  match base64.decodeMap (encodeStd n) with
  | Some m => (m =? n)%N
  | None => false
  end
  && negb (base64.isPad (encodeStd n))
  && negb (base64.isNewline (encodeStd n)).

(** * Properties *)

(** ** The models on small inputs *)

Example decode_QQ : base64.StdEncoding_Decode "QQ==" = Some ["A"%byte].
Proof. reflexivity. Qed.

Example decode_A : base64.StdEncoding_Decode "A" = None.
Proof. reflexivity. Qed.

Example decode_foobar :
  base64.StdEncoding_Decode "Zm9vYmFy" = Some ["f"; "o"; "o"; "b"; "a"; "r"]%byte.
Proof. reflexivity. Qed.

Example decode_fooba :
  base64.StdEncoding_Decode "Zm9vYmE=" = Some ["f"; "o"; "o"; "b"; "a"]%byte.
Proof. reflexivity. Qed.

Example decode_trailing : base64.StdEncoding_Decode "QQ==QQ==" = None.
Proof. reflexivity. Qed.

Example list_inactive :
  http.body (w (snd (serve RouteList
                       (request "GET" "/list" [("tableName", "T"); ("status", "inactive")])
                       world0)))
  = [http.Document (json.JArray [json.ofItem rowB])].
Proof. reflexivity. Qed.

Example list_all :
  http.body (w (snd (serve RouteList (request "GET" "/list" [("tableName", "T")]) world0)))
  = [http.Document (json.JArray [json.ofItem rowA; json.ofItem rowB])].
Proof. reflexivity. Qed.

(** ** Stepping through a handler *)

Ltac unfold_go :=
  unfold serve, handler, httpError, Fprint, Fprint1, logrusError, Error, log,
    modifyWriter, modifyServer, getServer, getTables, setTables, send, panic,
    bind, ret in *.

(** ** The guards of the two handlers *)



(** ** DeactivateHandler *)

Lemma bind_Done {A B} (m : Go A) (k : A -> Go B) st a st' :
  m st = (Done a, st') -> bind m k st = k a st'.
Proof. intro H. unfold bind. rewrite H. reflexivity. Qed.

(** DynamoDBGetItem always returns: it sends one GetItem for the table name
    and index on the server and changes nothing else but the log. *)
Lemma DynamoDBGetItem_returns (st : World) :
  exists it st1,
    DynamoDBGetItem st = (Done it, st1) /\
    srv st1 = srv st /\ tables st1 = tables st /\ w st1 = w st /\
    network st1 = tl (network st) /\
    calls st1 = (calls st ++ [dynamodb.CallGetItem
                                {| dynamodb.GetTableName := tableName (srv st);
                                   dynamodb.GetKey := index (srv st) |}])%list.
Proof.
  unfold DynamoDBGetItem, GetItem. unfold_go. cbn.
  destruct (hd None (network st)) as [e|]; cbn.
  - eexists _, _. split; [reflexivity|]. cbn. auto 10.
  - destruct (dynamodb.findTable (tables st) (tableName (srv st))) as [t|]; cbn.
    + destruct (dynamodb.findRow t (index (srv st))) as [m|]; cbn.
      * destruct (dynamodb.decodeError m); cbn;
          (eexists _, _; split; [reflexivity|]; cbn; auto 10).
      * eexists _, _. split; [reflexivity|]. cbn. auto 10.
    + eexists _, _. split; [reflexivity|]. cbn. auto 10.
Qed.

(** C9: a POST /deactivate without an index parameter, or with an empty one,
    sends nothing to the store, leaves the tables alone and answers 200 with
    an empty body. *)
Theorem deactivate_without_index (r : http.Request) (st : World) :
  accepted RouteDeactivate r = true ->
  http.Get (http.Query r) "index" = "" ->
  exists st',
    serve RouteDeactivate r st = (Done tt, st') /\
    calls st' = calls st /\ tables st' = tables st /\
    http.body (w st') = [] /\ http.status (w st') = http.StatusOK.
Proof.
  unfold accepted. cbn [pattern verb]. intros Hacc Hidx.
  apply andb_prop in Hacc. destruct Hacc as [HP HM].
  unfold serve, handler, DeactivateHandler.
  rewrite HP, HM, Hidx. cbn [negb].
  unfold_go. cbn.
  eexists. split; [reflexivity|]. cbn. auto.
Qed.

Lemma deactivate_without_index_witness :
  exists st',
    serve RouteDeactivate (request "POST" "/deactivate" [("tableName", "T")]) world0
    = (Done tt, st') /\
    calls st' = calls world0 /\ tables st' = tables world0 /\
    http.body (w st') = [] /\ http.status (w st') = http.StatusOK.
Proof.
  apply (deactivate_without_index
           (request "POST" "/deactivate" [("tableName", "T")]) world0);
    reflexivity.
Defined.

(** What DynamoDBGetItem leaves behind when it is called by the handler. *)
Lemma lookup_frame (r : http.Request) (key : bytes) (st : World) it st1 :
  DynamoDBGetItem (atLookup r key st) = (Done it, st1) ->
  srv st1 = srv (atLookup r key st) /\ tables st1 = tables st /\
  w st1 = http.newResponseWriter /\
  calls st1 = (calls st ++ [lookupCall r key])%list /\
  network st1 = tl (network st).
Proof.
  intro H.
  destruct (DynamoDBGetItem_returns (atLookup r key st))
    as (it' & st1' & E & Hs & Ht & Hw & Hn & Hc).
  rewrite H in E. inversion E; subst it' st1'.
  repeat split; assumption.
Qed.

(** The handler, for an accepted request whose index decodes to [key], up to
    the call of DynamoDBGetItem. *)
Ltac enter_deactivate r key st Hacc Hidx Hkey :=
  unfold accepted in Hacc; cbn [pattern verb] in Hacc;
  apply andb_prop in Hacc; destruct Hacc as [?HP ?HM];
  unfold indexBytes, json.Marshal_string in Hkey; cbn [fst] in Hkey;
  unfold serve, handler, DeactivateHandler;
  rewrite HP, HM, Hidx; cbn [negb];
  unfold json.Marshal_string; rewrite Hkey;
  unfold bind at 1 2 3 4 5; unfold modifyServer, log, freshWriter; cbn [srv tables network calls logs w];
  match goal with
  | |- context [bind DynamoDBGetItem ?k ?x] =>
      change x with (atLookup r key st)
  end.

(** The branch of DeactivateHandler for an entry that is not active. *)
Lemma DeactivateHandler_inactive
    (r : http.Request) (st : World) (key : bytes) (currEntry : Item) (st1 : World) :
  accepted RouteDeactivate r = true ->
  (http.Get (http.Query r) "index" =? "") = false ->
  indexBytes (http.Get (http.Query r) "index") = (key, None) ->
  DynamoDBGetItem (atLookup r key st) = (Done currEntry, st1) ->
  Active currEntry = false ->
  exists st',
    serve RouteDeactivate r st = (Done tt, st') /\
    calls st' = (calls st ++ [lookupCall r key])%list /\
    updates (calls st') = updates (calls st) /\
    tables st' = tables st /\
    http.status (w st') = http.StatusOK /\
    http.body (w st') = [http.Text alreadyInactive; http.Document (json.ofItem currEntry)].
Proof.
  intros Hacc Hidx Hkey Hget Hact.
  destruct (lookup_frame _ _ _ Hget) as (Hs & Ht & Hw & Hc & Hn).
  enter_deactivate r key st Hacc Hidx Hkey.
  rewrite (@bind_Done _ _ _ _ _ _ _ Hget). rewrite Hact. cbn [negb].
  unfold_go. cbn.
  eexists. split; [reflexivity|]. cbn.
  rewrite Hc, Ht, Hw. unfold updates. rewrite filter_app. cbn.
  rewrite app_nil_r. auto 10.
Qed.

(** C4: when the entry the key resolves to is not active, DeactivateHandler
    sends no update, so the tables are as they were, and answers 200 with the
    fixed message followed by the JSON of that entry. *)
Theorem deactivate_inactive_entry
    (r : http.Request) (st : World) (key : bytes) (currEntry : Item) (st1 : World) :
  accepted RouteDeactivate r = true ->
  (http.Get (http.Query r) "index" =? "") = false ->
  indexBytes (http.Get (http.Query r) "index") = (key, None) ->
  DynamoDBGetItem (atLookup r key st) = (Done currEntry, st1) ->
  Active currEntry = false ->
  exists st',
    serve RouteDeactivate r st = (Done tt, st') /\
    calls st' = (calls st ++ [lookupCall r key])%list /\
    updates (calls st') = updates (calls st) /\
    tables st' = tables st /\
    http.status (w st') = http.StatusOK /\
    http.body (w st') = [http.Text alreadyInactive; http.Document (json.ofItem currEntry)].
Proof.
  intros Hacc Hidx Hkey Hget Hact.
  exact (DeactivateHandler_inactive r st Hacc Hidx Hkey Hget Hact).
Qed.

Lemma deactivate_inactive_entry_witness :
  exists st',
    serve RouteDeactivate
      (request "POST" "/deactivate" [("tableName", "T"); ("index", "Qg==")]) world0
    = (Done tt, st') /\
    calls st' = (calls world0 ++
                 [lookupCall (request "POST" "/deactivate"
                                [("tableName", "T"); ("index", "Qg==")]) ["B"%byte]])%list /\
    updates (calls st') = updates (calls world0) /\
    tables st' = tables world0 /\
    http.status (w st') = http.StatusOK /\
    http.body (w st') = [http.Text alreadyInactive; http.Document (json.ofItem rowB)].
Proof.
  apply (@deactivate_inactive_entry
           (request "POST" "/deactivate" [("tableName", "T"); ("index", "Qg==")])
           world0 ["B"%byte] rowB
           (snd (DynamoDBGetItem
                   (atLookup (request "POST" "/deactivate"
                                [("tableName", "T"); ("index", "Qg==")])
                      ["B"%byte] world0))));
    reflexivity.
Defined.

(** ** Updating a row *)

Lemma updateRow_found (t : dynamodb.Table) (k : bytes) (b : bool) m :
  dynamodb.findRow t k = Some m ->
  snd (dynamodb.updateRow t k b) = dynamodb.setActive b m /\
  dynamodb.findRow (fst (dynamodb.updateRow t k b)) k = Some (dynamodb.setActive b m).
Proof.
  induction t as [|[k0 m0] rest IH]; cbn; [discriminate|].
  destruct (bytes_eqb k0 k) eqn:E.
  - intro H. inversion H; subst m0. cbn. rewrite E. auto.
  - intro H. destruct (IH H) as [IH1 IH2].
    destruct (dynamodb.updateRow rest k b) as [rest' m']. cbn in *.
    rewrite E. auto.
Qed.

Lemma updateRow_inactive (t : dynamodb.Table) (k : bytes) :
  Active (dynamodb.decoded (snd (dynamodb.updateRow t k false))) = false.
Proof.
  induction t as [|[k0 m0] rest IH]; cbn; [reflexivity|].
  destruct (bytes_eqb k0 k); cbn; [reflexivity|].
  destruct (dynamodb.updateRow rest k false) as [rest' m']. exact IH.
Qed.

Lemma findTable_putTable (ts : dynamodb.Tables) (n : string) t t' :
  dynamodb.findTable ts n = Some t ->
  dynamodb.findTable (dynamodb.putTable ts n t') n = Some t'.
Proof.
  induction ts as [|[m t0] rest IH]; cbn; [discriminate|].
  destruct (String.eqb m n) eqn:E; cbn; rewrite E; auto.
Qed.

(** An active entry can only come from a row of the table. *)
Lemma lookup_active (st : World) it st1 :
  DynamoDBGetItem st = (Done it, st1) ->
  Active it = true ->
  exists t m,
    dynamodb.findTable (tables st) (tableName (srv st)) = Some t /\
    dynamodb.findRow t (index (srv st)) = Some m /\
    dynamodb.decoded m = it.
Proof.
  unfold DynamoDBGetItem, GetItem. unfold_go. cbn.
  destruct (hd None (network st)) as [e|]; cbn.
  - intro H. inversion H; subst. discriminate.
  - destruct (dynamodb.findTable (tables st) (tableName (srv st))) as [t|]; cbn.
    + destruct (dynamodb.findRow t (index (srv st))) as [m|] eqn:Em; cbn.
      * destruct (dynamodb.decodeError m); cbn; intro H; inversion H; subst;
          intros _; eauto.
      * intro H. inversion H; subst. discriminate.
    + intro H. inversion H; subst. discriminate.
Qed.

(** DynamoDBDeactivate always returns, with an entry that is not active: it
    sends one UpdateItem for the table name and index on the server; when the
    call meets no transport error and the row exists, the entry returned is
    the row with [active] set to false, and the table holds it. *)
Lemma DynamoDBDeactivate_returns (st : World) :
  exists resp st2,
    DynamoDBDeactivate st = (Done resp, st2) /\
    Active resp = false /\
    srv st2 = srv st /\ w st2 = w st /\ network st2 = tl (network st) /\
    calls st2 = (calls st ++ [dynamodb.CallUpdateItem
                                {| dynamodb.UpdateTableName := tableName (srv st);
                                   dynamodb.UpdateKey := index (srv st);
                                   dynamodb.UpdateActive := false |}])%list /\
    (forall t m,
        hd None (network st) = None ->
        dynamodb.findTable (tables st) (tableName (srv st)) = Some t ->
        dynamodb.findRow t (index (srv st)) = Some m ->
        resp = set_Active false (dynamodb.decoded m) /\
        exists t',
          dynamodb.findTable (tables st2) (tableName (srv st)) = Some t' /\
          option_map dynamodb.decoded (dynamodb.findRow t' (index (srv st))) = Some resp).
Proof.
  unfold DynamoDBDeactivate, UpdateItem. unfold_go. cbn.
  destruct (hd None (network st)) as [e|] eqn:En; cbn.
  - eexists _, _. split; [reflexivity|]. cbn. repeat split; try reflexivity.
    all: intros; discriminate.
  - destruct (dynamodb.findTable (tables st) (tableName (srv st))) as [t|] eqn:Et; cbn.
    + pose proof (updateRow_inactive t (index (srv st))) as Hin.
      pose proof (@updateRow_found t (index (srv st)) false) as Hfound.
      destruct (dynamodb.updateRow t (index (srv st)) false) as [t' m'] eqn:Eu.
      cbn in Hin, Hfound. cbn.
      assert (Hrest : forall t0 m,
                 Some t = Some t0 ->
                 dynamodb.findRow t0 (index (srv st)) = Some m ->
                 dynamodb.decoded m' = set_Active false (dynamodb.decoded m) /\
                 exists t'0,
                   dynamodb.findTable
                     (dynamodb.putTable (tables st) (tableName (srv st)) t')
                     (tableName (srv st)) = Some t'0 /\
                   option_map dynamodb.decoded (dynamodb.findRow t'0 (index (srv st)))
                   = Some (dynamodb.decoded m')).
      { intros t0 m Ht0 Hm. inversion Ht0; subst t0.
        destruct (Hfound m Hm) as [H1 H2]. subst m'. split; [reflexivity|].
        exists t'. split.
        - eapply findTable_putTable. exact Et.
        - rewrite H2. reflexivity. }
      destruct (dynamodb.decodeError m'); cbn;
        (eexists _, _; split; [reflexivity|]; cbn; repeat split; auto;
         intros; eapply Hrest; eauto).
    + eexists _, _. split; [reflexivity|]. cbn. repeat split; try reflexivity.
      all: intros; discriminate.
Qed.

(** The branch of DeactivateHandler for an active entry. *)
Lemma DeactivateHandler_active
    (r : http.Request) (st : World) (key : bytes) (currEntry : Item) (st1 : World) :
  accepted RouteDeactivate r = true ->
  (http.Get (http.Query r) "index" =? "") = false ->
  indexBytes (http.Get (http.Query r) "index") = (key, None) ->
  DynamoDBGetItem (atLookup r key st) = (Done currEntry, st1) ->
  Active currEntry = true ->
  exists resp st',
    serve RouteDeactivate r st = (Done tt, st') /\
    calls st' = (calls st ++ [lookupCall r key; updateCall r key])%list /\
    updates (calls st') = (updates (calls st) ++ [updateCall r key])%list /\
    http.status (w st') = http.StatusOK /\
    http.body (w st') = [http.Text deactivated; http.Document (json.ofItem resp)] /\
    Active resp = false /\
    network st' = tl (network st1) /\
    (hd None (network st1) = None ->
     resp = set_Active false currEntry /\
     exists t',
       dynamodb.findTable (tables st') (http.Get (http.Query r) "tableName") = Some t' /\
       option_map dynamodb.decoded (dynamodb.findRow t' key) = Some resp).
Proof.
  intros Hacc Hidx Hkey Hget Hact.
  destruct (lookup_frame _ _ _ Hget) as (Hs & Ht & Hw & Hc & Hn).
  destruct (lookup_active _ Hget Hact) as (t & m & Hft & Hfr & Hm).
  cbn in Hft, Hfr.
  enter_deactivate r key st Hacc Hidx Hkey.
  rewrite (@bind_Done _ _ _ _ _ _ _ Hget). rewrite Hact. cbn [negb].
  unfold bind at 1. cbv beta iota.
  match goal with
  | |- context [bind DynamoDBDeactivate ?k ?x] =>
      destruct (DynamoDBDeactivate_returns x)
        as (resp & st2 & Hd & Hin & Hs2 & Hw2 & Hn2 & Hc2 & Hup);
      rewrite (@bind_Done _ _ _ _ _ _ _ Hd)
  end.
  cbn in Hs2, Hw2, Hn2, Hc2, Hup.
  rewrite Hs in Hs2, Hc2, Hup. cbn in Hs2, Hc2, Hup.
  unfold_go. cbn.
  exists resp. eexists. split; [reflexivity|]. cbn.
  rewrite Hc2, Hw2, Hw, Hc. cbn.
  split; [rewrite <- app_assoc; reflexivity|].
  split.
  { unfold updates. rewrite !filter_app. cbn. rewrite app_nil_r. reflexivity. }
  split; [reflexivity|]. split; [reflexivity|]. split; [exact Hin|].
  split; [exact Hn2|].
  intro Hnet. rewrite Ht in Hup.
  destruct (Hup t m Hnet Hft Hfr) as [E1 E2].
  rewrite Hm in E1. split; assumption.
Qed.

(** C5: when the entry the key resolves to is active, DeactivateHandler sends
    exactly one update, which sets [active] to false under that key, and
    answers 200 with the success message followed by the JSON of an entry
    that is not active; unless the transport fails the update, that entry is
    the looked-up one with [active] false, and it is what the table now holds
    under the key. *)
Theorem deactivate_active_entry
    (r : http.Request) (st : World) (key : bytes) (currEntry : Item) (st1 : World) :
  accepted RouteDeactivate r = true ->
  (http.Get (http.Query r) "index" =? "") = false ->
  indexBytes (http.Get (http.Query r) "index") = (key, None) ->
  DynamoDBGetItem (atLookup r key st) = (Done currEntry, st1) ->
  Active currEntry = true ->
  exists resp st',
    serve RouteDeactivate r st = (Done tt, st') /\
    calls st' = (calls st ++ [lookupCall r key; updateCall r key])%list /\
    updates (calls st') = (updates (calls st) ++ [updateCall r key])%list /\
    http.status (w st') = http.StatusOK /\
    http.body (w st') = [http.Text deactivated; http.Document (json.ofItem resp)] /\
    Active resp = false /\
    (hd None (network st1) = None ->
     resp = set_Active false currEntry /\
     exists t',
       dynamodb.findTable (tables st') (http.Get (http.Query r) "tableName") = Some t' /\
       option_map dynamodb.decoded (dynamodb.findRow t' key) = Some resp).
Proof.
  intros Hacc Hidx Hkey Hget Hact.
  destruct (DeactivateHandler_active r st Hacc Hidx Hkey Hget Hact)
    as (resp & st' & H1 & H2 & H3 & H4 & H5 & H6 & _ & H7).
  exists resp, st'. auto 10.
Qed.

Lemma deactivate_active_entry_witness :
  exists resp st',
    serve RouteDeactivate
      (request "POST" "/deactivate" [("tableName", "T"); ("index", "QQ==")]) world0
    = (Done tt, st') /\
    calls st' = (calls world0 ++
                 [lookupCall (request "POST" "/deactivate"
                                [("tableName", "T"); ("index", "QQ==")]) ["A"%byte];
                  updateCall (request "POST" "/deactivate"
                                [("tableName", "T"); ("index", "QQ==")]) ["A"%byte]])%list /\
    updates (calls st') =
      (updates (calls world0) ++
       [updateCall (request "POST" "/deactivate"
                      [("tableName", "T"); ("index", "QQ==")]) ["A"%byte]])%list /\
    http.status (w st') = http.StatusOK /\
    http.body (w st') = [http.Text deactivated; http.Document (json.ofItem resp)] /\
    Active resp = false /\
    (hd None (network
                (snd (DynamoDBGetItem
                        (atLookup (request "POST" "/deactivate"
                                     [("tableName", "T"); ("index", "QQ==")])
                           ["A"%byte] world0)))) = None ->
     resp = set_Active false rowA /\
     exists t',
       dynamodb.findTable (tables st')
         (http.Get (http.Query (request "POST" "/deactivate"
                                  [("tableName", "T"); ("index", "QQ==")])) "tableName")
       = Some t' /\
       option_map dynamodb.decoded (dynamodb.findRow t' ["A"%byte]) = Some resp).
Proof.
  apply (@deactivate_active_entry
           (request "POST" "/deactivate" [("tableName", "T"); ("index", "QQ==")])
           world0 ["A"%byte] rowA
           (snd (DynamoDBGetItem
                   (atLookup (request "POST" "/deactivate"
                                [("tableName", "T"); ("index", "QQ==")])
                      ["A"%byte] world0))));
    reflexivity.
Defined.

(** A key that is not in the table is told apart from a row that is there
    and inactive: the two answers carry different JSON. *)
Lemma absent_key_is_told_apart :
  http.body (w (snd (serve RouteDeactivate
                       (request "POST" "/deactivate"
                          [("tableName", "T"); ("index", "Qw==")]) world0)))
  = [http.Text alreadyInactive; http.Document (json.ofItem zeroItem)] /\
  http.body (w (snd (serve RouteDeactivate
                       (request "POST" "/deactivate"
                          [("tableName", "T"); ("index", "Qg==")]) world0)))
  = [http.Text alreadyInactive; http.Document (json.ofItem rowB)] /\
  dynamodb.findRow tableT ["C"%byte] = None /\
  dynamodb.findRow tableT ["B"%byte] = Some (wellFormed rowB) /\
  http.body (w (snd (serve RouteDeactivate
                       (request "POST" "/deactivate"
                          [("tableName", "T"); ("index", "Qw==")]) world0)))
  <> http.body (w (snd (serve RouteDeactivate
                          (request "POST" "/deactivate"
                             [("tableName", "T"); ("index", "Qg==")]) world0))).
Proof.
  repeat (split; [reflexivity|]).
  intro H. vm_compute in H. discriminate H.
Qed.

(** C10, as the code has it: when the table has no row under the key,
    DynamoDBGetItem returns the zero Item, whose active flag is false; so
    DeactivateHandler sends no update, leaves the tables alone and answers
    200 with the already-inactive message followed by the JSON of the zero
    Item.  The answer for an entry that exists and is not active has the
    same status and the same message; the JSON after the message is that
    entry's, and the two answers are the same only when that JSON is the
    zero Item's. *)
Theorem deactivate_absent_key
    (r : http.Request) (st : World) (key : bytes) (t : dynamodb.Table) :
  accepted RouteDeactivate r = true ->
  (http.Get (http.Query r) "index" =? "") = false ->
  indexBytes (http.Get (http.Query r) "index") = (key, None) ->
  dynamodb.findTable (tables st) (http.Get (http.Query r) "tableName") = Some t ->
  dynamodb.findRow t key = None ->
  exists st1 st',
    DynamoDBGetItem (atLookup r key st) = (Done zeroItem, st1) /\
    Active zeroItem = false /\
    serve RouteDeactivate r st = (Done tt, st') /\
    calls st' = (calls st ++ [lookupCall r key])%list /\
    updates (calls st') = updates (calls st) /\
    tables st' = tables st /\
    http.status (w st') = http.StatusOK /\
    http.body (w st') = [http.Text alreadyInactive; http.Document (json.ofItem zeroItem)] /\
    (forall st0 it s0,
        DynamoDBGetItem (atLookup r key st0) = (Done it, s0) ->
        Active it = false ->
        exists st0',
          serve RouteDeactivate r st0 = (Done tt, st0') /\
          http.status (w st0') = http.status (w st') /\
          http.body (w st0') = [http.Text alreadyInactive; http.Document (json.ofItem it)] /\
          (http.body (w st0') = http.body (w st') <-> json.ofItem it = json.ofItem zeroItem)).
Proof.
  intros Hacc Hidx Hkey Ht Hrow.
  assert (Hget : exists st1, DynamoDBGetItem (atLookup r key st) = (Done zeroItem, st1)).
  { unfold DynamoDBGetItem, GetItem. unfold_go. cbn.
    destruct (hd None (network st)) as [e|]; cbn.
    - eexists. reflexivity.
    - rewrite Ht. cbn. rewrite Hrow. cbn. eexists. reflexivity. }
  destruct Hget as [st1 Hget].
  destruct (DeactivateHandler_inactive r st Hacc Hidx Hkey Hget eq_refl)
    as (st' & H).
  exists st1, st'. split; [exact Hget|]. split; [reflexivity|].
  destruct H as (H1 & H2 & H3 & H4 & H5 & H6).
  repeat (split; [assumption|]).
  intros st0 it s0 Hget0 Hact0.
  destruct (DeactivateHandler_inactive r st0 Hacc Hidx Hkey Hget0 Hact0)
    as (st0' & G1 & _ & _ & _ & G5 & G6).
  exists st0'. rewrite G5, H5, G6, H6.
  split; [exact G1|]. split; [reflexivity|]. split; [reflexivity|].
  split.
  - intro E. congruence.
  - intro E. rewrite E. reflexivity.
Qed.

Lemma deactivate_absent_key_witness :
  exists st1 st',
    DynamoDBGetItem
      (atLookup (request "POST" "/deactivate" [("tableName", "T"); ("index", "Qw==")])
         ["C"%byte] world0) = (Done zeroItem, st1) /\
    Active zeroItem = false /\
    serve RouteDeactivate
      (request "POST" "/deactivate" [("tableName", "T"); ("index", "Qw==")]) world0
    = (Done tt, st') /\
    calls st' = (calls world0 ++
                 [lookupCall (request "POST" "/deactivate"
                                [("tableName", "T"); ("index", "Qw==")]) ["C"%byte]])%list /\
    updates (calls st') = updates (calls world0) /\
    tables st' = tables world0 /\
    http.status (w st') = http.StatusOK /\
    http.body (w st') = [http.Text alreadyInactive; http.Document (json.ofItem zeroItem)] /\
    (forall st0 it s0,
        DynamoDBGetItem
          (atLookup (request "POST" "/deactivate" [("tableName", "T"); ("index", "Qw==")])
             ["C"%byte] st0) = (Done it, s0) ->
        Active it = false ->
        exists st0',
          serve RouteDeactivate
            (request "POST" "/deactivate" [("tableName", "T"); ("index", "Qw==")]) st0
          = (Done tt, st0') /\
          http.status (w st0') = http.status (w st') /\
          http.body (w st0') = [http.Text alreadyInactive; http.Document (json.ofItem it)] /\
          (http.body (w st0') = http.body (w st') <-> json.ofItem it = json.ofItem zeroItem)).
Proof.
  apply (@deactivate_absent_key
           (request "POST" "/deactivate" [("tableName", "T"); ("index", "Qw==")])
           world0 ["C"%byte] tableT);
    reflexivity.
Defined.

(** ** ListHandler *)

Lemma Scan_returns (input : dynamodb.ScanInput) (st : World) :
  exists out st',
    Scan input st = (Done (out, scanError st (dynamodb.ScanTableName input)), st') /\
    srv st' = srv st /\ tables st' = tables st /\ w st' = w st /\ logs st' = logs st /\
    calls st' = (calls st ++ [dynamodb.CallScan input])%list /\
    (scanError st (dynamodb.ScanTableName input) <> None -> dynamodb.Items out = []).
Proof.
  unfold Scan, scanError. unfold_go. cbn.
  destruct (hd None (network st)) as [e|]; cbn.
  - eexists _, _. split; [reflexivity|]. cbn. auto 10.
  - destruct (dynamodb.findTable (tables st) (dynamodb.ScanTableName input)); cbn.
    + eexists _, _. split; [reflexivity|]. cbn. repeat split. congruence.
    + eexists _, _. split; [reflexivity|]. cbn. auto 10.
Qed.

(** DynamoDBList always returns, after one unfiltered scan of the table named
    on the server; a failed scan is logged and yields a nil slice. *)
Lemma DynamoDBList_returns (st : World) :
  exists resp err st',
    DynamoDBList st = (Done (resp, err), st') /\
    srv st' = srv st /\ tables st' = tables st /\ w st' = w st /\
    calls st' = (calls st ++ [dynamodb.CallScan
                                {| dynamodb.FilterExpression := None;
                                   dynamodb.ProjectionExpression := None;
                                   dynamodb.ScanTableName := tableName (srv st) |}])%list /\
    (forall e, scanError st (tableName (srv st)) = Some e ->
               resp = None /\ In (LogrusError "Failed to scan DynamoDB" e) (logs st')).
Proof.
  unfold DynamoDBList. unfold bind at 1. unfold getServer.
  match goal with
  | |- context [bind (Scan ?i) ?k st] =>
      destruct (Scan_returns i st) as (out & st1 & HS & Hs & Ht & Hw & Hl & Hc & Hi);
      rewrite (@bind_Done _ _ _ _ _ _ _ HS)
  end.
  cbn [dynamodb.ScanTableName] in *.
  destruct (scanError st (tableName (srv st))) as [e|] eqn:Ee.
  - unfold_go. cbn. eexists _, _, _. split; [reflexivity|]. cbn.
    split; [exact Hs|]. split; [exact Ht|]. split; [exact Hw|]. split; [exact Hc|].
    intros e0 He0. inversion He0; subst e0. split; [reflexivity|].
    rewrite Hl. apply in_or_app. right. left. reflexivity.
  - destruct (dynamodbattribute.UnmarshalListOfMaps (dynamodb.Items out) (Some []))
      as [obj [e|]]; unfold_go; cbn;
      (eexists _, _, _; split; [reflexivity|]; cbn;
       split; [exact Hs|]; split; [exact Ht|]; split; [exact Hw|]; split; [exact Hc|];
       intros e0 He0; discriminate He0).
Qed.

(** The part of DynamoDBQuery after the active flag is set, from any world:
    it builds the expression, scans once and decodes. *)
Lemma DynamoDBQuery_returns (st : World) :
  exists resp err st',
    DynamoDBQuery st = (Done (resp, err), st') /\
    srv st' = (if status (srv st) =? "active" then set_active true (srv st)
               else if status (srv st) =? "inactive" then set_active false (srv st)
               else srv st) /\
    tables st' = tables st /\ w st' = w st /\
    calls st' =
      (calls st ++
       [dynamodb.CallScan
          {| dynamodb.FilterExpression :=
               expression.Filter
                 (fst (expression.Build (buildFilter (srv st'))
                         ["index"; "name"; "users"; "active"]));
             dynamodb.ProjectionExpression :=
               expression.Projection
                 (fst (expression.Build (buildFilter (srv st'))
                         ["index"; "name"; "users"; "active"]));
             dynamodb.ScanTableName := tableName (srv st) |}])%list /\
    (forall e, scanError st (tableName (srv st)) = Some e ->
               resp = Some [] /\ err = None /\
               In (LogrusError "Query API call failed" e) (logs st')).
Proof.
  assert (tail : forall st0 : World,
    exists resp err st',
      (let s := srv st0 in
       let proj := ["index"; "name"; "users"; "active"] in
       let filt := buildFilter s in
       let '(expr, err) := expression.Build filt proj in
       (match err with
        | Some _ => logrusError err "Got error building expression"
        | None => ret tt
        end);;
       let params := {| dynamodb.FilterExpression := expression.Filter expr;
                        dynamodb.ProjectionExpression := expression.Projection expr;
                        dynamodb.ScanTableName := tableName s |} in
       let obj := Some [] in
       '(result, err) <- Scan params;;
       (match err with
        | Some _ => logrusError err "Query API call failed"
        | None => ret tt
        end);;
       let '(obj, err) := dynamodbattribute.UnmarshalListOfMaps (dynamodb.Items result) obj in
       match err with
       | Some _ =>
           logrusError err "Failed to unmarshal query output";;
           ret (None, err)
       | None => ret (obj, None)
       end) st0 = (Done (resp, err), st') /\
      srv st' = srv st0 /\ tables st' = tables st0 /\ w st' = w st0 /\
      calls st' =
        (calls st0 ++
         [dynamodb.CallScan
            {| dynamodb.FilterExpression :=
                 expression.Filter
                   (fst (expression.Build (buildFilter (srv st0))
                           ["index"; "name"; "users"; "active"]));
               dynamodb.ProjectionExpression :=
                 expression.Projection
                   (fst (expression.Build (buildFilter (srv st0))
                           ["index"; "name"; "users"; "active"]));
               dynamodb.ScanTableName := tableName (srv st0) |}])%list /\
      (forall e, scanError st0 (tableName (srv st0)) = Some e ->
                 resp = Some [] /\ err = None /\
                 In (LogrusError "Query API call failed" e) (logs st'))).
  { intro st0. cbv zeta.
    destruct (expression.Build (buildFilter (srv st0)) ["index"; "name"; "users"; "active"])
      as [expr berr] eqn:EB. cbn [fst].
    set (params := {| dynamodb.FilterExpression := expression.Filter expr;
                      dynamodb.ProjectionExpression := expression.Projection expr;
                      dynamodb.ScanTableName := tableName (srv st0) |}).
    assert (pre : exists st1,
               (match berr with
                | Some _ => logrusError berr "Got error building expression"
                | None => ret tt
                end) st0 = (Done tt, st1) /\
               srv st1 = srv st0 /\ tables st1 = tables st0 /\ w st1 = w st0 /\
               calls st1 = calls st0 /\ network st1 = network st0).
    { destruct berr; unfold_go; cbn; eexists; (split; [reflexivity|]); cbn; auto. }
    destruct pre as (st1 & Hpre & Hs1 & Ht1 & Hw1 & Hc1 & Hn1).
    rewrite (@bind_Done _ _ _ _ _ _ _ Hpre).
    destruct (Scan_returns params st1) as (out & st2 & HS & Hs & Ht & Hw & Hl & Hc & Hi).
    rewrite (@bind_Done _ _ _ _ _ _ _ HS).
    assert (Hse : scanError st1 (dynamodb.ScanTableName params)
                  = scanError st0 (tableName (srv st0))).
    { unfold scanError. rewrite Hn1, Ht1. reflexivity. }
    rewrite Hse in *.
    destruct (scanError st0 (tableName (srv st0))) as [e|] eqn:Ee.
    - rewrite Hi by discriminate.
      unfold_go. cbn. eexists _, _, _. split; [reflexivity|]. cbn.
      split; [congruence|]. split; [congruence|]. split; [congruence|].
      split; [rewrite Hc, Hc1; reflexivity|].
      intros e0 He0. inversion He0; subst e0. split; [reflexivity|]. split; [reflexivity|].
      apply in_or_app. right. left. reflexivity.
    - destruct (dynamodbattribute.UnmarshalListOfMaps (dynamodb.Items out) (Some []))
        as [obj [e|]]; unfold_go; cbn;
        (eexists _, _, _; split; [reflexivity|]; cbn;
         split; [congruence|]; split; [congruence|]; split; [congruence|];
         split; [rewrite Hc, Hc1; reflexivity|];
         intros e0 He0; discriminate He0). }
  unfold DynamoDBQuery. unfold bind at 1. unfold getServer at 1. cbv beta iota.
  destruct (status (srv st) =? "active") eqn:Ea;
    [ apply String.eqb_eq in Ea; rewrite Ea; cbn [String.eqb Ascii.eqb Bool.eqb negb]
    | destruct (status (srv st) =? "inactive") eqn:Ei;
      [ apply String.eqb_eq in Ei; rewrite Ei; cbn [String.eqb Ascii.eqb Bool.eqb negb]
      | destruct (negb (status (srv st) =? "")) ] ];
    unfold bind at 1; unfold modifyServer, ret at 1; cbv beta iota;
    unfold bind at 1; unfold getServer at 1; cbv beta iota;
    match goal with
    | |- context [_ ?x = (Done _, _)] =>
        destruct (tail x) as (resp & err & st' & Hrun & Hs & Ht & Hw & Hc & Hf)
    end;
    cbv zeta in Hrun; cbn [srv tables network calls logs w] in Hrun, Hs, Ht, Hw, Hc;
    exists resp, err, st'; rewrite Hs;
    (split; [exact Hrun|]); (split; [reflexivity|]);
    (split; [exact Ht|]); (split; [exact Hw|]); (split; [exact Hc|]); exact Hf.
Qed.

Ltac step :=
  unfold bind at 1;
  first [ unfold modifyServer at 1 | unfold getServer at 1 | unfold ret at 1 ];
  cbv beta iota.

(** ListHandler, for an accepted request: it always returns; it stores the
    parameters on the server, sends the one scan the Query Builder
    prescribes and writes the JSON of what the helper returned. *)
Lemma ListHandler_runs (r : http.Request) (st : World) :
  accepted RouteList r = true ->
  exists resp st',
    serve RouteList r st = (Done tt, st') /\
    tables st' = tables st /\
    ServerName (srv st') = ServerName (srv st) /\ ASess (srv st') = ASess (srv st) /\
    tableName (srv st') = http.Get (http.Query r) "tableName" /\
    name (srv st') = http.Get (http.Query r) "name" /\
    status (srv st') = match optStatus (http.Get (http.Query r) "status") with
                       | Some p => p
                       | None => ""
                       end /\
    calls st' = (calls st ++ [dynamodb.CallScan (specScan r)])%list /\
    w st' = http.Write http.newResponseWriter
              [http.Document (fst (json.MarshalIndent_Items resp))] /\
    (forall e,
        scanError st (http.Get (http.Query r) "tableName") = Some e ->
        match dynamodb.FilterExpression (specScan r) with
        | Some _ => resp = Some [] /\ In (LogrusError "Query API call failed" e) (logs st')
        | None => resp = None /\ In (LogrusError "Failed to scan DynamoDB" e) (logs st')
        end).
Proof.
  unfold accepted. cbn [pattern verb]. intro Hacc.
  apply andb_prop in Hacc. destruct Hacc as [HP HM].
  unfold serve, handler, ListHandler. rewrite HP, HM. cbn [negb]. cbv zeta.
  unfold specScan, optName, optStatus.
  destruct (http.Get (http.Query r) "name" =? "") eqn:En;
    [ apply String.eqb_eq in En; rewrite En | ];
  (destruct (http.Get (http.Query r) "status" =? "active") eqn:Ea;
    [ apply String.eqb_eq in Ea; rewrite Ea
    | destruct (http.Get (http.Query r) "status" =? "inactive") eqn:Ei;
      [ apply String.eqb_eq in Ei; rewrite Ei | ] ]);
  cbn [String.eqb Ascii.eqb Bool.eqb negb orb andb QueryBuilder projectionFor
       dynamodb.FilterExpression];
  do 8 step; cbn [srv tables network calls logs w freshWriter name status set_name
                  set_status set_active set_tableName String.eqb Ascii.eqb Bool.eqb
                  negb orb andb];
  rewrite ?En; cbn [negb orb];
  match goal with
  | |- context [bind DynamoDBQuery _ ?x] =>
      destruct (DynamoDBQuery_returns x)
        as (resp & err & st2 & Hrun & Hs & Ht & Hw & Hc & Hf)
  | |- context [bind DynamoDBList _ ?x] =>
      destruct (DynamoDBList_returns x)
        as (resp & err & st2 & Hrun & Hs & Ht & Hw & Hc & Hf)
  end;
  rewrite (@bind_Done _ _ _ _ _ _ _ Hrun); cbv beta iota;
  try rewrite Hs in Hc;
  unfold buildFilter, expression.Build in Hs, Hc;
  cbn in Hs, Hc, Ht, Hw; rewrite ?En in Hc; cbn in Hc;
  exists resp; unfold json.MarshalIndent_Items, Fprint1, modifyWriter;
  (destruct resp; cbn [fst snd]; (eexists; split; [reflexivity|]);
   cbn [srv tables network calls logs w]; rewrite Hs, Hw; cbn;
   repeat match goal with
          | |- _ /\ _ => split; [first [reflexivity | assumption | congruence]|]
          end;
   intros e1 He1; pose proof (Hf e1 He1) as Hx; tauto).
Qed.

(** C2: for every combination of the name and status parameters, ListHandler
    sends exactly the scan the Query Builder of section 4.2 prescribes: the
    conjunction when both are present, the one comparison when only one is,
    and with neither present a scan without predicate and without
    projection, of the whole table. *)
Theorem list_sends_specified_predicate (r : http.Request) (st : World) :
  accepted RouteList r = true ->
  exists st',
    serve RouteList r st = (Done tt, st') /\
    calls st' =
      (calls st ++
       [dynamodb.CallScan
          {| dynamodb.FilterExpression :=
               QueryBuilder (optName (http.Get (http.Query r) "name"))
                 (optStatus (http.Get (http.Query r) "status"));
             dynamodb.ProjectionExpression :=
               match QueryBuilder (optName (http.Get (http.Query r) "name"))
                       (optStatus (http.Get (http.Query r) "status")) with
               | Some _ => Some ["index"; "name"; "users"; "active"]
               | None => None
               end;
             dynamodb.ScanTableName := http.Get (http.Query r) "tableName" |}])%list.
Proof.
  intro Hacc.
  destruct (ListHandler_runs r st Hacc)
    as (resp & st' & Hrun & _ & _ & _ & _ & _ & _ & Hc & _).
  exists st'. split; [exact Hrun|]. exact Hc.
Qed.

Lemma list_sends_specified_predicate_witness :
  exists st',
    serve RouteList
      (request "GET" "/list" [("tableName", "T"); ("name", "foo"); ("status", "inactive")])
      world0 = (Done tt, st') /\
    calls st' =
      [dynamodb.CallScan
         {| dynamodb.FilterExpression :=
              Some (expression.And
                      (expression.Equal "name" (expression.ValueS "foo"))
                      (expression.Equal "active" (expression.ValueBOOL false)));
            dynamodb.ProjectionExpression := Some ["index"; "name"; "users"; "active"];
            dynamodb.ScanTableName := "T" |}].
Proof.
  apply (list_sends_specified_predicate
           (request "GET" "/list"
              [("tableName", "T"); ("name", "foo"); ("status", "inactive")]) world0).
  reflexivity.
Defined.

(** ** A request without its status parameter *)

Lemma Get_withoutStatus (q : list (string * string)) :
  http.Get (filter (fun kv => negb (fst kv =? "status")) q) "status" = "".
Proof.
  induction q as [|[k v] q IH]; cbn; [reflexivity|].
  destruct (k =? "status") eqn:E; cbn; [exact IH|].
  rewrite E. exact IH.
Qed.

Lemma Get_withoutStatus_other (q : list (string * string)) (key : string) :
  (key =? "status") = false ->
  http.Get (filter (fun kv => negb (fst kv =? "status")) q) key = http.Get q key.
Proof.
  intro Hk. induction q as [|[k v] q IH]; cbn; [reflexivity|].
  destruct (k =? "status") eqn:E; cbn.
  - apply String.eqb_eq in E. subst k. rewrite String.eqb_sym, Hk. exact IH.
  - rewrite IH. reflexivity.
Qed.

(** C3: a status parameter that is neither [active] nor [inactive] is treated
    as absent.  The request is served exactly as the request without the
    parameter; the handler returns normally with status 200, keeps the empty
    status on the server and sends a scan whose predicate is that of the name
    alone, with no component on [active]; when the name is absent too, the
    scan has no predicate and no projection. *)
Theorem list_ignores_other_status (r : http.Request) (st : World) :
  accepted RouteList r = true ->
  (http.Get (http.Query r) "status" =? "active") = false ->
  (http.Get (http.Query r) "status" =? "inactive") = false ->
  serve RouteList r st = serve RouteList (withoutStatus r) st /\
  exists scan st',
    serve RouteList r st = (Done tt, st') /\
    status (srv st') = "" /\
    http.status (w st') = http.StatusOK /\
    calls st' = (calls st ++ [dynamodb.CallScan scan])%list /\
    dynamodb.FilterExpression scan
    = QueryBuilder (optName (http.Get (http.Query r) "name")) None /\
    match dynamodb.FilterExpression scan with
    | Some c => onActive c = false
    | None => http.Get (http.Query r) "name" = "" /\
              dynamodb.ProjectionExpression scan = None
    end.
Proof.
  intros Hacc Ha Hi. split.
  - unfold serve, handler, ListHandler, withoutStatus.
    cbn [http.Path http.Method http.Query].
    rewrite Get_withoutStatus, !Get_withoutStatus_other by reflexivity.
    rewrite Ha, Hi. reflexivity.
  - destruct (ListHandler_runs r st Hacc)
      as (resp & st' & Hrun & _ & _ & _ & _ & _ & Hst & Hc & Hw & _).
    exists (specScan r), st'.
    unfold specScan, optStatus, optName in *. rewrite Ha, Hi in *. cbn [orb] in *.
    split; [exact Hrun|]. split; [exact Hst|].
    split; [rewrite Hw; reflexivity|]. split; [exact Hc|].
    cbn [dynamodb.FilterExpression dynamodb.ProjectionExpression].
    split; [reflexivity|].
    destruct (http.Get (http.Query r) "name" =? "") eqn:En; cbn.
    + apply String.eqb_eq in En. auto.
    + reflexivity.
Qed.

Lemma list_ignores_other_status_witness :
  serve RouteList (request "GET" "/list" [("tableName", "T"); ("status", "all")]) world0
  = serve RouteList
      (withoutStatus (request "GET" "/list" [("tableName", "T"); ("status", "all")]))
      world0 /\
  exists scan st',
    serve RouteList (request "GET" "/list" [("tableName", "T"); ("status", "all")]) world0
    = (Done tt, st') /\
    status (srv st') = "" /\
    http.status (w st') = http.StatusOK /\
    calls st' = (calls world0 ++ [dynamodb.CallScan scan])%list /\
    dynamodb.FilterExpression scan = QueryBuilder (optName "") None /\
    match dynamodb.FilterExpression scan with
    | Some c => onActive c = false
    | None => "" = "" /\ dynamodb.ProjectionExpression scan = None
    end.
Proof.
  apply (list_ignores_other_status
           (request "GET" "/list" [("tableName", "T"); ("status", "all")]) world0);
    reflexivity.
Defined.

(** C6: when the scan of a /list request fails, the error is logged and the
    handler still returns normally and answers 200 with the JSON of what the
    helper returned: [null], the nil slice of DynamoDBList, or [[]], the
    empty slice of DynamoDBQuery.  The tables are not touched. *)
Theorem list_survives_scan_failure (r : http.Request) (st : World) (e : string) :
  accepted RouteList r = true ->
  scanError st (http.Get (http.Query r) "tableName") = Some e ->
  exists st',
    serve RouteList r st = (Done tt, st') /\
    http.status (w st') = http.StatusOK /\
    http.body (w st') =
      [http.Document
         (match dynamodb.FilterExpression (specScan r) with
          | Some _ => json.JArray []
          | None => json.JNull
          end)] /\
    (exists msg, In (LogrusError msg e) (logs st')) /\
    http.Header (w st') = [] /\
    tables st' = tables st.
Proof.
  intros Hacc Herr.
  destruct (ListHandler_runs r st Hacc)
    as (resp & st' & Hrun & Ht & _ & _ & _ & _ & _ & _ & Hw & Hf).
  specialize (Hf e Herr).
  exists st'. split; [exact Hrun|]. rewrite Hw.
  destruct (dynamodb.FilterExpression (specScan r)); destruct Hf as [Hr Hl]; subst resp;
    cbn; repeat split; eauto.
Qed.

Lemma list_survives_scan_failure_witness :
  exists st',
    serve RouteList (request "GET" "/list" [("tableName", "U")]) world0 = (Done tt, st') /\
    http.status (w st') = http.StatusOK /\
    http.body (w st') =
      [http.Document
         (match dynamodb.FilterExpression
                  (specScan (request "GET" "/list" [("tableName", "U")])) with
          | Some _ => json.JArray []
          | None => json.JNull
          end)] /\
    (exists msg, In (LogrusError msg ResourceNotFound) (logs st')) /\
    http.Header (w st') = [] /\
    tables st' = tables world0.
Proof.
  apply (@list_survives_scan_failure
           (request "GET" "/list" [("tableName", "U")]) world0 ResourceNotFound);
    reflexivity.
Defined.

(** ** What a procedure leaves of the server *)

Section Keeps.

Context {X : Type} (f : Server -> X).

Lemma keeps_ret {A} (a : A) : keeps f (ret a).
Proof. intro st. reflexivity. Qed.

Lemma keeps_panic {A} (msg : string) : keeps f (@panic A msg).
Proof. intro st. reflexivity. Qed.

Lemma keeps_bind {A B} (m : Go A) (k : A -> Go B) :
  keeps f m -> (forall a, keeps f (k a)) -> keeps f (bind m k).
Proof.
  intros Hm Hk st. unfold bind. specialize (Hm st).
  destruct (m st) as [[a|msg] st1]; cbn in *.
  - rewrite (Hk a st1). exact Hm.
  - exact Hm.
Qed.

Lemma keeps_getServer : keeps f getServer.
Proof. intro st. reflexivity. Qed.

Lemma keeps_getTables : keeps f getTables.
Proof. intro st. reflexivity. Qed.

Lemma keeps_setTables ts : keeps f (setTables ts).
Proof. intro st. reflexivity. Qed.

Lemma keeps_log e : keeps f (log e).
Proof. intro st. reflexivity. Qed.

Lemma keeps_modifyWriter g : keeps f (modifyWriter g).
Proof. intro st. reflexivity. Qed.

Lemma keeps_send c : keeps f (send c).
Proof. intro st. reflexivity. Qed.

Lemma keeps_modifyServer (g : Server -> Server) :
  (forall s, f (g s) = f s) -> keeps f (modifyServer g).
Proof. intros Hg st. cbn. apply Hg. Qed.

End Keeps.

Ltac keeps_step :=
  first
    [ assumption
    | apply keeps_ret | apply keeps_panic | apply keeps_getServer
    | apply keeps_getTables | apply keeps_setTables | apply keeps_log
    | apply keeps_modifyWriter | apply keeps_send
    | apply keeps_modifyServer; intro; reflexivity
    | apply keeps_bind; [|intros]
    | match goal with
      | |- keeps _ (if ?c then _ else _) => destruct c
      | |- keeps _ (match ?x with _ => _ end) => destruct x
      end ].

Ltac keeps_all :=
  unfold httpError, Fprint, Fprint1, logrusError, Error, Scan, GetItem, UpdateItem;
  repeat keeps_step.

(** The four helpers write no field of the server but [active]. *)
Lemma helpers_keep {X} (f : Server -> X) :
  (forall b s, f (set_active b s) = f s) ->
  keeps f DynamoDBList /\ keeps f DynamoDBQuery /\
  keeps f DynamoDBGetItem /\ keeps f DynamoDBDeactivate.
Proof.
  intro Hf. repeat split.
  - unfold DynamoDBList. keeps_all.
  - unfold DynamoDBQuery. keeps_all.
    all: try (apply keeps_modifyServer; intro; apply Hf).
  - unfold DynamoDBGetItem. keeps_all.
  - unfold DynamoDBDeactivate. keeps_all.
Qed.

Lemma handlers_keep {X} (f : Server -> X) (e : Route) (r : http.Request) :
  (forall v s, f (set_tableName v s) = f s) ->
  (forall v s, f (set_name v s) = f s) ->
  (forall v s, f (set_status v s) = f s) ->
  (forall v s, f (set_active v s) = f s) ->
  (forall v s, f (set_index v s) = f s) ->
  keeps f (handler e r).
Proof.
  intros Ht Hn Hs Ha Hi.
  destruct (helpers_keep f Ha) as (HL & HQ & HG & HD).
  destruct e; cbn [handler]; [unfold ListHandler | unfold DeactivateHandler];
    unfold json.Marshal_string, json.MarshalIndent_Item; keeps_all;
    try assumption;
    apply keeps_modifyServer; intro; auto.
Qed.

(** The server after an accepted /list request: the parameters of the
    request, and the active flag as DynamoDBQuery sets it. *)
Lemma ListHandler_server (r : http.Request) (st : World) :
  accepted RouteList r = true ->
  srv (snd (serve RouteList r st))
  = {| ServerName := ServerName (srv st); ASess := ASess (srv st);
       tableName := http.Get (http.Query r) "tableName";
       name := http.Get (http.Query r) "name";
       status := match optStatus (http.Get (http.Query r) "status") with
                 | Some p => p
                 | None => ""
                 end;
       active := (http.Get (http.Query r) "status" =? "active");
       index := index (srv st) |}.
Proof.
  unfold accepted. cbn [pattern verb]. intro Hacc.
  apply andb_prop in Hacc. destruct Hacc as [HP HM].
  unfold serve, handler, ListHandler. rewrite HP, HM. cbn [negb]. cbv zeta.
  unfold optStatus.
  destruct (http.Get (http.Query r) "name" =? "") eqn:En;
    [ apply String.eqb_eq in En; rewrite En | ];
  (destruct (http.Get (http.Query r) "status" =? "active") eqn:Ea;
    [ apply String.eqb_eq in Ea; rewrite Ea
    | destruct (http.Get (http.Query r) "status" =? "inactive") eqn:Ei;
      [ apply String.eqb_eq in Ei; rewrite Ei | ] ]);
  cbn [String.eqb Ascii.eqb Bool.eqb negb orb andb];
  do 8 step; cbn [srv tables network calls logs w freshWriter name status set_name
                  set_status set_active set_tableName String.eqb Ascii.eqb Bool.eqb
                  negb orb andb];
  rewrite ?En; cbn [negb orb];
  match goal with
  | |- context [bind DynamoDBQuery _ ?x] =>
      destruct (DynamoDBQuery_returns x)
        as (resp & err & st2 & Hrun & Hs & _)
  | |- context [bind DynamoDBList _ ?x] =>
      destruct (DynamoDBList_returns x)
        as (resp & err & st2 & Hrun & Hs & _)
  end;
  rewrite (@bind_Done _ _ _ _ _ _ _ Hrun); cbv beta iota;
  cbn in Hs;
  unfold json.MarshalIndent_Items, Fprint1, modifyWriter;
  (destruct resp; cbn [fst snd srv]; rewrite Hs; reflexivity).
Qed.

(** DynamoDBGetItem and DynamoDBDeactivate write no field of the server. *)
Lemma lookup_and_update_keep {X} (f : Server -> X) :
  keeps f DynamoDBGetItem /\ keeps f DynamoDBDeactivate.
Proof.
  split.
  - unfold DynamoDBGetItem. keeps_all.
  - unfold DynamoDBDeactivate. keeps_all.
Qed.

(** On an error the round trip leaves the byte slice nil. *)
Lemma indexBytes_error (param2 : string) (e : string) :
  snd (indexBytes param2) = Some e -> fst (indexBytes param2) = [].
Proof.
  unfold indexBytes, json.Marshal_string, json.Unmarshal_bytes. cbn [fst].
  destruct (base64.StdEncoding_Decode param2); cbn; [discriminate|reflexivity].
Qed.

(** The server after an accepted /deactivate request, however it ends: the
    table name of the request and the bytes of its index; the fields of
    /list are as they were. *)
Lemma DeactivateHandler_server (r : http.Request) (st : World) :
  accepted RouteDeactivate r = true ->
  srv (snd (serve RouteDeactivate r st))
  = {| ServerName := ServerName (srv st); ASess := ASess (srv st);
       tableName := http.Get (http.Query r) "tableName";
       name := name (srv st);
       status := status (srv st);
       active := active (srv st);
       index := fst (indexBytes (http.Get (http.Query r) "index")) |}.
Proof.
  intro Hacc.
  destruct (http.Get (http.Query r) "index" =? "") eqn:Hidx.
  - unfold accepted in Hacc. cbn [pattern verb] in Hacc.
    apply andb_prop in Hacc. destruct Hacc as [HP HM].
    unfold serve, handler, DeactivateHandler. rewrite HP, HM, Hidx.
    apply String.eqb_eq in Hidx. rewrite Hidx. reflexivity.
  - destruct (indexBytes (http.Get (http.Query r) "index")) as [key [e|]] eqn:Hkey.
    + assert (Hnil : key = []).
      { pose proof (@indexBytes_error (http.Get (http.Query r) "index") e) as H.
        rewrite Hkey in H. exact (H eq_refl). }
      subst key.
      unfold accepted in Hacc. cbn [pattern verb] in Hacc.
      apply andb_prop in Hacc. destruct Hacc as [HP HM].
      unfold indexBytes, json.Marshal_string in Hkey. cbn [fst] in Hkey.
      unfold serve, handler, DeactivateHandler. rewrite HP, HM, Hidx.
      unfold json.Marshal_string. rewrite Hkey. reflexivity.
    + cbn [fst].
      enter_deactivate r key st Hacc Hidx Hkey.
      match goal with
      | |- srv (snd (?m ?x)) = _ =>
          assert (K : keeps (fun s : Server => s) m);
          [| rewrite (K x); reflexivity ]
      end.
      destruct (lookup_and_update_keep (fun s : Server => s)) as (HG & HD).
      unfold json.MarshalIndent_Item. keeps_all.
Qed.

(** C7, as the code has it: the handlers write request data on the server
    that all requests share.  After an accepted /list request the server
    holds the request's table name, its name, its status when that is
    [active] or [inactive] (else the empty string) and the active flag the
    status stands for; after an accepted /deactivate request it holds the
    request's table name and the bytes of its index (nil when the index is
    empty or does not decode).  A request that is not accepted writes
    nothing, and no request writes the server's Name or its session. *)
Theorem handlers_write_request_fields_only (e : Route) (r : http.Request) (st : World) :
  ServerName (srv (snd (serve e r st))) = ServerName (srv st) /\
  ASess (srv (snd (serve e r st))) = ASess (srv st) /\
  tableName (srv (snd (serve e r st)))
  = (if accepted e r then http.Get (http.Query r) "tableName" else tableName (srv st)) /\
  srv (snd (serve e r st))
  = (if accepted e r then
       match e with
       | RouteList =>
           {| ServerName := ServerName (srv st); ASess := ASess (srv st);
              tableName := http.Get (http.Query r) "tableName";
              name := http.Get (http.Query r) "name";
              status := match optStatus (http.Get (http.Query r) "status") with
                        | Some p => p
                        | None => ""
                        end;
              active := (http.Get (http.Query r) "status" =? "active");
              index := index (srv st) |}
       | RouteDeactivate =>
           {| ServerName := ServerName (srv st); ASess := ASess (srv st);
              tableName := http.Get (http.Query r) "tableName";
              name := name (srv st);
              status := status (srv st);
              active := active (srv st);
              index := fst (indexBytes (http.Get (http.Query r) "index")) |}
       end
     else srv st).
Proof.
  assert (Hall : srv (snd (serve e r st))
                 = (if accepted e r then
                      match e with
                      | RouteList =>
                          {| ServerName := ServerName (srv st); ASess := ASess (srv st);
                             tableName := http.Get (http.Query r) "tableName";
                             name := http.Get (http.Query r) "name";
                             status := match optStatus (http.Get (http.Query r) "status") with
                                       | Some p => p
                                       | None => ""
                                       end;
                             active := (http.Get (http.Query r) "status" =? "active");
                             index := index (srv st) |}
                      | RouteDeactivate =>
                          {| ServerName := ServerName (srv st); ASess := ASess (srv st);
                             tableName := http.Get (http.Query r) "tableName";
                             name := name (srv st);
                             status := status (srv st);
                             active := active (srv st);
                             index := fst (indexBytes (http.Get (http.Query r) "index")) |}
                      end
                    else srv st)).
  { destruct (accepted e r) eqn:Hacc.
    - destruct e.
      + exact (ListHandler_server r st Hacc).
      + exact (DeactivateHandler_server r st Hacc).
    - unfold accepted in Hacc.
      destruct e; cbn [pattern verb] in Hacc; unfold serve, handler;
        [unfold ListHandler | unfold DeactivateHandler];
        (destruct (http.Path r =? _); cbn [negb];
         [destruct (http.Method r =? _); [discriminate Hacc|] |]);
        reflexivity. }
  rewrite Hall.
  destruct (accepted e r); destruct e; cbn; auto.
Qed.

(** A /list request leaves its parameters on the shared server. *)
Lemma list_request_writes_shared_server :
  srv (snd (serve RouteList
              (request "GET" "/list"
                 [("tableName", "T"); ("name", "foo"); ("status", "active")]) world0))
  = {| ServerName := ""; ASess := devSession; tableName := "T"; name := "foo";
       status := "active"; active := true; index := [] |} /\
  srv (snd (serve RouteList
              (request "GET" "/list"
                 [("tableName", "T"); ("name", "foo"); ("status", "active")]) world0))
  <> srv world0.
Proof.
  split.
  - reflexivity.
  - intro H. vm_compute in H. discriminate H.
Qed.

(** ** The scenario: deactivating twice *)

(** An entry that is in the table is what DynamoDBGetItem returns when the
    call meets no transport error. *)
Lemma lookup_found (r : http.Request) (key : bytes) (st : World) t it :
  dynamodb.findTable (tables st) (http.Get (http.Query r) "tableName") = Some t ->
  option_map dynamodb.decoded (dynamodb.findRow t key) = Some it ->
  hd None (network st) = None ->
  exists st1, DynamoDBGetItem (atLookup r key st) = (Done it, st1).
Proof.
  intros Ht Hrow Hnet.
  unfold DynamoDBGetItem, GetItem. unfold_go. cbn.
  rewrite Hnet. cbn. rewrite Ht. cbn.
  destruct (dynamodb.findRow t key) as [m|]; [|discriminate Hrow].
  cbn in Hrow. inversion Hrow; subst it. cbn.
  destruct (dynamodb.decodeError m); cbn; eexists; reflexivity.
Qed.

(** The index [A] is not the base64 text of any key: the round trip fails,
    no call reaches the store, row A stays active and nothing is written to
    the response. *)
Lemma index_A_is_not_row_A :
  indexBytes "A" = ([], Some "illegal base64 data") /\
  serve RouteDeactivate
    (request "POST" "/deactivate" [("tableName", "T"); ("index", "A")]) world0
  = (Panic nilDereference,
     {| srv := set_tableName "T" newServer; tables := [("T", tableT)]; network := [];
        calls := []; logs := [LogPrint "A"]; w := http.newResponseWriter |}) /\
  dynamodb.findRow tableT ["A"%byte] = Some (wellFormed rowA) /\
  Active rowA = true.
Proof. repeat split. Qed.

(** C1, with the index that the round trip maps to the key: when the index
    parameter decodes to the key of an active row and the store answers, the
    request sets the row's [active] to false and returns the row; the same
    request again returns the same row after the already-inactive message,
    and sends no update. *)
Theorem deactivate_twice
    (r : http.Request) (st : World) (key : bytes)
    (t : dynamodb.Table) (m : dynamodb.AttributeMap) :
  accepted RouteDeactivate r = true ->
  (http.Get (http.Query r) "index" =? "") = false ->
  indexBytes (http.Get (http.Query r) "index") = (key, None) ->
  network st = [] ->
  dynamodb.findTable (tables st) (http.Get (http.Query r) "tableName") = Some t ->
  dynamodb.findRow t key = Some m ->
  Active (dynamodb.decoded m) = true ->
  exists st1 st2 t1,
    serve RouteDeactivate r st = (Done tt, st1) /\
    http.body (w st1) =
      [http.Text deactivated;
       http.Document (json.ofItem (set_Active false (dynamodb.decoded m)))] /\
    dynamodb.findTable (tables st1) (http.Get (http.Query r) "tableName") = Some t1 /\
    option_map dynamodb.decoded (dynamodb.findRow t1 key)
    = Some (set_Active false (dynamodb.decoded m)) /\
    serve RouteDeactivate r st1 = (Done tt, st2) /\
    http.body (w st2) =
      [http.Text alreadyInactive;
       http.Document (json.ofItem (set_Active false (dynamodb.decoded m)))] /\
    tables st2 = tables st1 /\
    updates (calls st2) = updates (calls st1).
Proof.
  intros Hacc Hidx Hkey Hnet Ht Hrow Hact.
  assert (Hit : option_map dynamodb.decoded (dynamodb.findRow t key)
                = Some (dynamodb.decoded m)) by (rewrite Hrow; reflexivity).
  assert (Hhd : hd None (network st) = None) by (rewrite Hnet; reflexivity).
  destruct (lookup_found r key st Ht Hit Hhd) as [s1 Hget1].
  destruct (lookup_frame _ _ _ Hget1) as (_ & _ & _ & _ & Hn1).
  rewrite Hnet in Hn1. cbn in Hn1.
  destruct (DeactivateHandler_active r st Hacc Hidx Hkey Hget1 Hact)
    as (resp & st1 & Hrun1 & _ & _ & _ & Hbody1 & Hin & Hnet1 & Hup).
  rewrite Hn1 in Hnet1, Hup. cbn in Hnet1.
  destruct (Hup eq_refl) as (Hresp & t1 & Ht1 & Hrow1). subst resp.
  assert (Hhd1 : hd None (network st1) = None) by (rewrite Hnet1; reflexivity).
  destruct (lookup_found r key st1 Ht1 Hrow1 Hhd1) as [s2 Hget2].
  destruct (DeactivateHandler_inactive r st1 Hacc Hidx Hkey Hget2 Hin)
    as (st2 & Hrun2 & _ & Hupd & Htab & _ & Hbody2).
  exists st1, st2, t1. auto 10.
Qed.

Lemma deactivate_twice_witness :
  exists st1 st2 t1,
    serve RouteDeactivate
      (request "POST" "/deactivate" [("tableName", "T"); ("index", "QQ==")]) world0
    = (Done tt, st1) /\
    http.body (w st1) =
      [http.Text deactivated; http.Document (json.ofItem (set_Active false rowA))] /\
    dynamodb.findTable (tables st1) "T" = Some t1 /\
    option_map dynamodb.decoded (dynamodb.findRow t1 ["A"%byte])
    = Some (set_Active false rowA) /\
    serve RouteDeactivate
      (request "POST" "/deactivate" [("tableName", "T"); ("index", "QQ==")]) st1
    = (Done tt, st2) /\
    http.body (w st2) =
      [http.Text alreadyInactive; http.Document (json.ofItem (set_Active false rowA))] /\
    tables st2 = tables st1 /\
    updates (calls st2) = updates (calls st1).
Proof.
  apply (@deactivate_twice
           (request "POST" "/deactivate" [("tableName", "T"); ("index", "QQ==")])
           world0 ["A"%byte] tableT (wellFormed rowA));
    reflexivity.
Defined.

(** * Further properties of the handlers *)

(** ** DeactivateHandler: an index that is not base64 *)

(** X1: when the index parameter is not empty and the JSON round trip fails
    on it, DeactivateHandler panics on the nil error of the first step
    (line 299 reads [err], not [err6]): no call has been sent, nothing has
    been written to the response, nothing but the parameter has been logged
    and the index on the server is nil. *)
Theorem deactivate_undecodable_index_panics (r : http.Request) (st : World) (e : string) :
  accepted RouteDeactivate r = true ->
  (http.Get (http.Query r) "index" =? "") = false ->
  snd (indexBytes (http.Get (http.Query r) "index")) = Some e ->
  exists st',
    serve RouteDeactivate r st = (Panic nilDereference, st') /\
    calls st' = calls st /\ tables st' = tables st /\
    w st' = http.newResponseWriter /\
    logs st' = (logs st ++ [LogPrint (http.Get (http.Query r) "index")])%list /\
    index (srv st') = [] /\
    tableName (srv st') = http.Get (http.Query r) "tableName".
Proof.
  unfold accepted. cbn [pattern verb]. intros Hacc Hidx Herr.
  apply andb_prop in Hacc. destruct Hacc as [HP HM].
  unfold indexBytes, json.Marshal_string in Herr. cbn [fst] in Herr.
  unfold serve, handler, DeactivateHandler.
  rewrite HP, HM, Hidx. cbn [negb]. unfold json.Marshal_string.
  destruct (json.Unmarshal_bytes (json.JString (http.Get (http.Query r) "index")))
    as [b [e'|]]; [|discriminate Herr].
  unfold_go. cbn. eexists. split; [reflexivity|]. cbn. auto 10.
Qed.

Lemma deactivate_undecodable_index_panics_witness :
  exists st',
    serve RouteDeactivate
      (request "POST" "/deactivate" [("tableName", "T"); ("index", "row-1")]) world0
    = (Panic nilDereference, st') /\
    calls st' = calls world0 /\ tables st' = tables world0 /\
    w st' = http.newResponseWriter /\
    logs st' = (logs world0 ++ [LogPrint "row-1"])%list /\
    index (srv st') = [] /\
    tableName (srv st') = "T".
Proof.
  apply (@deactivate_undecodable_index_panics
           (request "POST" "/deactivate" [("tableName", "T"); ("index", "row-1")])
           world0 "illegal base64 data");
    reflexivity.
Defined.

(** ** DeactivateHandler: what the two store calls yield *)

(** What DynamoDBGetItem returns: the zero Item and a log line when the call
    fails, else the decoded row, or the zero Item without one. *)
Lemma DynamoDBGetItem_cases (st : World) :
  exists it st1,
    DynamoDBGetItem st = (Done it, st1) /\
    match callError st (tableName (srv st)) with
    | Some e =>
        it = zeroItem /\
        In (LogrusError "Failed to call DynamoDBGetItem" e) (logs st1)
    | None =>
        it = match rowAt (tables st) (tableName (srv st)) (index (srv st)) with
             | Some m => dynamodb.decoded m
             | None => zeroItem
             end
    end.
Proof.
  unfold DynamoDBGetItem, GetItem, callError, rowAt. unfold_go. cbn.
  destruct (hd None (network st)) as [e|]; cbn.
  - eexists _, _. split; [reflexivity|]. cbn. split; [reflexivity|].
    apply in_or_app. right. left. reflexivity.
  - destruct (dynamodb.findTable (tables st) (tableName (srv st))) as [t|]; cbn.
    + destruct (dynamodb.findRow t (index (srv st))) as [m|]; cbn.
      * destruct (dynamodb.decodeError m); cbn;
          (eexists _, _; split; reflexivity).
      * eexists _, _. split; reflexivity.
    + eexists _, _. split; [reflexivity|]. cbn. split; [reflexivity|].
      apply in_or_app. right. left. reflexivity.
Qed.

(** The inactive branch, with what it logs. *)
Lemma DeactivateHandler_inactive_logs
    (r : http.Request) (st : World) (key : bytes) (currEntry : Item) (st1 : World) :
  accepted RouteDeactivate r = true ->
  (http.Get (http.Query r) "index" =? "") = false ->
  indexBytes (http.Get (http.Query r) "index") = (key, None) ->
  DynamoDBGetItem (atLookup r key st) = (Done currEntry, st1) ->
  Active currEntry = false ->
  exists st',
    serve RouteDeactivate r st = (Done tt, st') /\
    logs st' = (logs st1 ++ [LogPrint "Current entry is already inactive."])%list /\
    srv st' = srv st1 /\ tables st' = tables st1 /\ calls st' = calls st1 /\
    network st' = network st1 /\
    w st' = http.Write (w st1)
              [http.Text alreadyInactive; http.Document (json.ofItem currEntry)].
Proof.
  intros Hacc Hidx Hkey Hget Hact.
  enter_deactivate r key st Hacc Hidx Hkey.
  rewrite (@bind_Done _ _ _ _ _ _ _ Hget). rewrite Hact. cbn [negb].
  unfold_go. cbn.
  eexists. split; [reflexivity|]. cbn. auto 10.
Qed.

(** What DynamoDBDeactivate does to the store and returns. *)
Lemma DynamoDBDeactivate_cases (st : World) :
  exists resp st2,
    DynamoDBDeactivate st = (Done resp, st2) /\
    srv st2 = srv st /\ w st2 = w st /\ network st2 = tl (network st) /\
    calls st2 = (calls st ++ [dynamodb.CallUpdateItem
                                {| dynamodb.UpdateTableName := tableName (srv st);
                                   dynamodb.UpdateKey := index (srv st);
                                   dynamodb.UpdateActive := false |}])%list /\
    match callError st (tableName (srv st)) with
    | Some e =>
        resp = zeroItem /\ tables st2 = tables st /\
        In (LogrusError "Failed to call UpdateItem" e) (logs st2)
    | None =>
        exists t,
          dynamodb.findTable (tables st) (tableName (srv st)) = Some t /\
          tables st2 = dynamodb.putTable (tables st) (tableName (srv st))
                         (fst (dynamodb.updateRow t (index (srv st)) false)) /\
          resp = dynamodb.decoded (snd (dynamodb.updateRow t (index (srv st)) false))
    end.
Proof.
  unfold DynamoDBDeactivate, UpdateItem, callError. unfold_go. cbn.
  destruct (hd None (network st)) as [e|] eqn:En; cbn.
  - eexists _, _. split; [reflexivity|]. cbn.
    repeat (split; [reflexivity|]). apply in_or_app. right. left. reflexivity.
  - destruct (dynamodb.findTable (tables st) (tableName (srv st))) as [t|] eqn:Et; cbn.
    + destruct (dynamodb.updateRow t (index (srv st)) false) as [t' m'] eqn:Eu. cbn.
      destruct (dynamodb.decodeError m'); cbn;
        (eexists _, _; split; [reflexivity|]; cbn;
         repeat match goal with
                | |- _ /\ _ => split; [reflexivity|]
                end;
         exists t; rewrite Eu; auto).
    + eexists _, _. split; [reflexivity|]. cbn.
      repeat (split; [reflexivity|]). apply in_or_app. right. left. reflexivity.
Qed.

(** The active branch: the handler logs the entry DynamoDBDeactivate
    returned and writes it after the success message, whatever the update
    did. *)
Lemma DeactivateHandler_active_run
    (r : http.Request) (st : World) (key : bytes) (currEntry : Item) (st1 : World)
    (resp : Item) (st2 : World) :
  accepted RouteDeactivate r = true ->
  (http.Get (http.Query r) "index" =? "") = false ->
  indexBytes (http.Get (http.Query r) "index") = (key, None) ->
  DynamoDBGetItem (atLookup r key st) = (Done currEntry, st1) ->
  Active currEntry = true ->
  DynamoDBDeactivate (atUpdate st1) = (Done resp, st2) ->
  exists st',
    serve RouteDeactivate r st = (Done tt, st') /\
    logs st' = (logs st2 ++ [LogPrintItem resp])%list /\
    srv st' = srv st2 /\ tables st' = tables st2 /\ calls st' = calls st2 /\
    network st' = network st2 /\
    w st' = http.Write (w st2)
              [http.Text deactivated; http.Document (json.ofItem resp)].
Proof.
  intros Hacc Hidx Hkey Hget Hact Hupd.
  enter_deactivate r key st Hacc Hidx Hkey.
  rewrite (@bind_Done _ _ _ _ _ _ _ Hget). rewrite Hact. cbn [negb].
  unfold bind at 1. cbv beta iota.
  match goal with
  | |- context [bind DynamoDBDeactivate ?k ?x] => change x with (atUpdate st1)
  end.
  rewrite (@bind_Done _ _ _ _ _ _ _ Hupd).
  unfold_go. cbn.
  eexists. split; [reflexivity|]. cbn. auto 10.
Qed.

(** ** DeactivateHandler: when a store call fails *)

(** X2: when the GetItem of a deactivate request fails (the transport, or a
    table that does not exist), the failure is logged and the request is
    answered as if the entry were already inactive: status 200, the
    already-inactive message and the JSON of the zero Item; no update is
    sent and the tables are unchanged. *)
Theorem deactivate_lookup_failure
    (r : http.Request) (st : World) (key : bytes) (e : string) :
  accepted RouteDeactivate r = true ->
  (http.Get (http.Query r) "index" =? "") = false ->
  indexBytes (http.Get (http.Query r) "index") = (key, None) ->
  callError st (http.Get (http.Query r) "tableName") = Some e ->
  exists st',
    serve RouteDeactivate r st = (Done tt, st') /\
    http.status (w st') = http.StatusOK /\
    http.body (w st') = [http.Text alreadyInactive; http.Document (json.ofItem zeroItem)] /\
    In (LogrusError "Failed to call DynamoDBGetItem" e) (logs st') /\
    calls st' = (calls st ++ [lookupCall r key])%list /\
    tables st' = tables st.
Proof.
  intros Hacc Hidx Hkey Herr.
  destruct (DynamoDBGetItem_cases (atLookup r key st)) as (it & st1 & Hget & Hcase).
  change (callError (atLookup r key st) (tableName (srv (atLookup r key st))))
    with (callError st (http.Get (http.Query r) "tableName")) in Hcase.
  rewrite Herr in Hcase. destruct Hcase as [Hit Hlog]. subst it.
  destruct (lookup_frame _ _ _ Hget) as (Hs & Ht & Hw & Hc & Hn).
  destruct (DeactivateHandler_inactive_logs r st Hacc Hidx Hkey Hget eq_refl)
    as (st' & Hrun & Hl' & Hs' & Ht' & Hc' & Hn' & Hw').
  exists st'. split; [exact Hrun|]. rewrite Hw', Hw, Hl', Ht', Hc', Ht, Hc.
  repeat split. apply in_or_app. left. exact Hlog.
Qed.

Lemma deactivate_lookup_failure_witness :
  exists st',
    serve RouteDeactivate
      (request "POST" "/deactivate" [("tableName", "U"); ("index", "QQ==")]) world0
    = (Done tt, st') /\
    http.status (w st') = http.StatusOK /\
    http.body (w st') = [http.Text alreadyInactive; http.Document (json.ofItem zeroItem)] /\
    In (LogrusError "Failed to call DynamoDBGetItem" ResourceNotFound) (logs st') /\
    calls st' = (calls world0 ++
                 [lookupCall (request "POST" "/deactivate"
                                [("tableName", "U"); ("index", "QQ==")]) ["A"%byte]])%list /\
    tables st' = tables world0.
Proof.
  apply (@deactivate_lookup_failure
           (request "POST" "/deactivate" [("tableName", "U"); ("index", "QQ==")])
           world0 ["A"%byte] ResourceNotFound);
    reflexivity.
Defined.

(** X3: when the entry is active and the UpdateItem then fails in the
    transport, the failure is logged, the row stays as it was, and the
    request is still answered 200 with the success message, followed by the
    JSON of the zero Item that DynamoDBDeactivate returns on an error. *)
Theorem deactivate_update_failure
    (r : http.Request) (st : World) (key : bytes) (currEntry : Item) (st1 : World)
    (e : string) :
  accepted RouteDeactivate r = true ->
  (http.Get (http.Query r) "index" =? "") = false ->
  indexBytes (http.Get (http.Query r) "index") = (key, None) ->
  DynamoDBGetItem (atLookup r key st) = (Done currEntry, st1) ->
  Active currEntry = true ->
  hd None (network st1) = Some e ->
  exists st',
    serve RouteDeactivate r st = (Done tt, st') /\
    http.status (w st') = http.StatusOK /\
    http.body (w st') = [http.Text deactivated; http.Document (json.ofItem zeroItem)] /\
    In (LogrusError "Failed to call UpdateItem" e) (logs st') /\
    calls st' = (calls st ++ [lookupCall r key; updateCall r key])%list /\
    tables st' = tables st /\
    exists m,
      rowAt (tables st') (http.Get (http.Query r) "tableName") key = Some m /\
      dynamodb.decoded m = currEntry.
Proof.
  intros Hacc Hidx Hkey Hget Hact Hnet.
  destruct (lookup_frame _ _ _ Hget) as (Hs & Ht & Hw & Hc & Hn).
  destruct (lookup_active _ Hget Hact) as (t & m & Hft & Hfr & Hm).
  cbn in Hft, Hfr.
  destruct (DynamoDBDeactivate_cases (atUpdate st1))
    as (resp & st2 & Hupd & Hs2 & Hw2 & Hn2 & Hc2 & Hcase).
  unfold callError in Hcase. cbn [atUpdate network tables srv] in Hcase.
  rewrite Hnet in Hcase. destruct Hcase as (Hresp & Ht2 & Hlog). subst resp.
  cbn [atUpdate tables calls w srv] in Ht2, Hc2, Hw2.
  destruct (DeactivateHandler_active_run r st Hacc Hidx Hkey Hget Hact Hupd)
    as (st' & Hrun & Hl' & Hs' & Ht' & Hc' & Hn' & Hw').
  exists st'. split; [exact Hrun|].
  rewrite Hw', Hw2, Hw, Hl', Ht', Ht2, Ht, Hc', Hc2, Hc, Hs. cbn.
  split; [reflexivity|]. split; [reflexivity|].
  split; [apply in_or_app; left; exact Hlog|].
  split; [rewrite <- app_assoc; reflexivity|].
  split; [reflexivity|].
  exists m. unfold rowAt. rewrite Hft. auto.
Qed.

Lemma deactivate_update_failure_witness :
  exists st',
    serve RouteDeactivate
      (request "POST" "/deactivate" [("tableName", "T"); ("index", "QQ==")])
      (onNetwork [None; Some requestError] world0)
    = (Done tt, st') /\
    http.status (w st') = http.StatusOK /\
    http.body (w st') = [http.Text deactivated; http.Document (json.ofItem zeroItem)] /\
    In (LogrusError "Failed to call UpdateItem" requestError) (logs st') /\
    calls st' = (calls (onNetwork [None; Some requestError] world0) ++
                 [lookupCall (request "POST" "/deactivate"
                                [("tableName", "T"); ("index", "QQ==")]) ["A"%byte];
                  updateCall (request "POST" "/deactivate"
                                [("tableName", "T"); ("index", "QQ==")]) ["A"%byte]])%list /\
    tables st' = tables (onNetwork [None; Some requestError] world0) /\
    exists m,
      rowAt (tables st')
        (http.Get (http.Query (request "POST" "/deactivate"
                                 [("tableName", "T"); ("index", "QQ==")])) "tableName")
        ["A"%byte] = Some m /\
      dynamodb.decoded m = rowA.
Proof.
  apply (@deactivate_update_failure
           (request "POST" "/deactivate" [("tableName", "T"); ("index", "QQ==")])
           (onNetwork [None; Some requestError] world0) ["A"%byte] rowA
           (snd (DynamoDBGetItem
                   (atLookup (request "POST" "/deactivate"
                                [("tableName", "T"); ("index", "QQ==")])
                      ["A"%byte] (onNetwork [None; Some requestError] world0))))
           requestError);
    reflexivity.
Defined.

(** ** DeactivateHandler: what it does to the tables *)

Lemma bytes_eqb_true (a b : bytes) : bytes_eqb a b = true <-> a = b.
Proof.
  unfold bytes_eqb. destruct (list_eq_dec Byte.byte_eq_dec a b); split; auto; discriminate.
Qed.

Lemma bytes_eqb_false (a b : bytes) : bytes_eqb a b = false <-> a <> b.
Proof.
  unfold bytes_eqb. destruct (list_eq_dec Byte.byte_eq_dec a b); split; auto;
    try discriminate; intro H; contradiction.
Qed.

(** Reading a table after an update of a row it has: the row updated is the
    only one that reads differently. *)
Lemma findRow_updateRow (t : dynamodb.Table) (k k' : bytes) (b : bool) m :
  dynamodb.findRow t k = Some m ->
  dynamodb.findRow (fst (dynamodb.updateRow t k b)) k'
  = if bytes_eqb k' k then Some (dynamodb.setActive b m) else dynamodb.findRow t k'.
Proof.
  induction t as [|[k0 m0] rest IH]; cbn; [discriminate|].
  destruct (bytes_eqb k0 k) eqn:E0.
  - intro H. inversion H; subst m0. cbn.
    apply bytes_eqb_true in E0. subst k0.
    destruct (bytes_eqb k k') eqn:E1.
    + apply bytes_eqb_true in E1. subst k'.
      replace (bytes_eqb k k) with true by (symmetry; apply bytes_eqb_true; reflexivity).
      reflexivity.
    + replace (bytes_eqb k' k) with false; [reflexivity|].
      symmetry. apply bytes_eqb_false. apply bytes_eqb_false in E1. congruence.
  - intro H. specialize (IH H).
    destruct (dynamodb.updateRow rest k b) as [rest' m']. cbn in *.
    destruct (bytes_eqb k0 k') eqn:E1.
    + apply bytes_eqb_true in E1. subst k'. rewrite E0. reflexivity.
    + exact IH.
Qed.

Lemma rowAt_putTable (ts : dynamodb.Tables) (n n' : string) (k' : bytes) t t' :
  dynamodb.findTable ts n = Some t ->
  rowAt (dynamodb.putTable ts n t') n' k'
  = if n' =? n then dynamodb.findRow t' k' else rowAt ts n' k'.
Proof.
  unfold rowAt.
  induction ts as [|[m0 t0] rest IH]; cbn; [discriminate|].
  destruct (m0 =? n) eqn:E0; cbn.
  - intros _. apply String.eqb_eq in E0. subst m0.
    rewrite (String.eqb_sym n' n).
    destruct (n =? n'); reflexivity.
  - intro H. specialize (IH H).
    destruct (m0 =? n') eqn:E1.
    + apply String.eqb_eq in E1. subst n'. rewrite E0. reflexivity.
    + exact IH.
Qed.

(** The tables after a deactivate request: as before, or with the [active]
    of the one addressed row, which exists, set to false. *)
Lemma DeactivateHandler_tables (r : http.Request) (st : World) :
  tables (snd (serve RouteDeactivate r st)) = tables st \/
  exists t m,
    dynamodb.findTable (tables st) (http.Get (http.Query r) "tableName") = Some t /\
    dynamodb.findRow t (fst (indexBytes (http.Get (http.Query r) "index"))) = Some m /\
    tables (snd (serve RouteDeactivate r st))
    = dynamodb.putTable (tables st) (http.Get (http.Query r) "tableName")
        (fst (dynamodb.updateRow t
                (fst (indexBytes (http.Get (http.Query r) "index"))) false)).
Proof.
  destruct (accepted RouteDeactivate r) eqn:Hacc.
  - destruct (http.Get (http.Query r) "index" =? "") eqn:Hidx.
    + left. unfold accepted in Hacc. cbn [pattern verb] in Hacc.
      apply andb_prop in Hacc. destruct Hacc as [HP HM].
      unfold serve, handler, DeactivateHandler. rewrite HP, HM, Hidx. reflexivity.
    + destruct (indexBytes (http.Get (http.Query r) "index")) as [key [e|]] eqn:Hkey.
      * left. unfold accepted in Hacc. cbn [pattern verb] in Hacc.
        apply andb_prop in Hacc. destruct Hacc as [HP HM].
        unfold indexBytes, json.Marshal_string in Hkey. cbn [fst] in Hkey.
        unfold serve, handler, DeactivateHandler. rewrite HP, HM, Hidx.
        unfold json.Marshal_string. rewrite Hkey. reflexivity.
      * cbn [fst].
        destruct (DynamoDBGetItem_returns (atLookup r key st))
          as (it & st1 & Hget & _).
        destruct (lookup_frame _ _ _ Hget) as (Hs & Ht & Hw & Hc & Hn).
        destruct (Active it) eqn:Hact.
        -- destruct (lookup_active _ Hget Hact) as (t & m & Hft & Hfr & Hm).
           cbn in Hft, Hfr.
           destruct (DynamoDBDeactivate_cases (atUpdate st1))
             as (resp & st2 & Hupd & Hs2 & Hw2 & Hn2 & Hc2 & Hcase).
           destruct (DeactivateHandler_active_run r st Hacc Hidx Hkey Hget Hact Hupd)
             as (st' & Hrun & _ & _ & Ht' & _).
           rewrite Hrun. cbn [snd]. rewrite Ht'.
           destruct (callError (atUpdate st1) (tableName (srv (atUpdate st1)))).
           ++ left. destruct Hcase as (_ & Ht2 & _). rewrite Ht2. exact Ht.
           ++ right. destruct Hcase as (t0 & Hft0 & Ht2 & _).
              cbn [atUpdate tables srv] in Hft0, Ht2.
              rewrite Hs, Ht in Hft0, Ht2. cbn in Hft0, Ht2.
              rewrite Hft in Hft0. inversion Hft0; subst t0.
              exists t, m. auto.
        -- left.
           destruct (DeactivateHandler_inactive r st Hacc Hidx Hkey Hget Hact)
             as (st' & Hrun & _ & _ & Ht' & _).
           rewrite Hrun. exact Ht'.
  - left. unfold accepted in Hacc. cbn [pattern verb] in Hacc.
    unfold serve, handler, DeactivateHandler.
    destruct (http.Path r =? "/deactivate"); cbn [negb];
      [destruct (http.Method r =? "POST"); [discriminate Hacc|] |]; reflexivity.
Qed.

(** X4: a deactivate request, however it ends, neither creates nor deletes a
    row and changes at most one: every row of every table is afterwards what
    it was, except that the row under the request's key in the request's
    table may have its [active] set to false. *)
Theorem deactivate_only_deactivates
    (r : http.Request) (st : World) (n : string) (k : bytes) :
  match rowAt (tables st) n k with
  | None => rowAt (tables (snd (serve RouteDeactivate r st))) n k = None
  | Some m =>
      rowAt (tables (snd (serve RouteDeactivate r st))) n k = Some m \/
      (rowAt (tables (snd (serve RouteDeactivate r st))) n k
       = Some (dynamodb.setActive false m) /\
       n = http.Get (http.Query r) "tableName" /\
       k = fst (indexBytes (http.Get (http.Query r) "index")))
  end.
Proof.
  destruct (DeactivateHandler_tables r st) as [Hsame | (t & m & Hft & Hfr & Hupd)].
  - rewrite Hsame. destruct (rowAt (tables st) n k); auto.
  - rewrite Hupd. rewrite (@rowAt_putTable _ _ n k _ _ Hft).
    destruct (n =? http.Get (http.Query r) "tableName") eqn:En.
    + apply String.eqb_eq in En. subst n.
      rewrite (@findRow_updateRow _ _ k false _ Hfr).
      unfold rowAt. rewrite Hft.
      destruct (bytes_eqb k (fst (indexBytes (http.Get (http.Query r) "index")))) eqn:Ek.
      * apply bytes_eqb_true in Ek. subst k. rewrite Hfr. right. auto.
      * destruct (dynamodb.findRow t k); auto.
    + destruct (rowAt (tables st) n k); auto.
Qed.

(** ** ListHandler: what it returns *)

Lemma Scan_result (input : dynamodb.ScanInput) (st : World) :
  exists st',
    Scan input st
    = (Done ({| dynamodb.Items := scanItems st input |},
             scanError st (dynamodb.ScanTableName input)), st') /\
    srv st' = srv st /\ tables st' = tables st /\ w st' = w st /\ logs st' = logs st /\
    network st' = tl (network st) /\
    calls st' = (calls st ++ [dynamodb.CallScan input])%list.
Proof.
  unfold Scan, scanError, scanItems. unfold_go. cbn.
  destruct (hd None (network st)) as [e|]; cbn.
  - eexists. split; [reflexivity|]. cbn. auto 10.
  - destruct (dynamodb.findTable (tables st) (dynamodb.ScanTableName input)); cbn;
      (eexists; split; [reflexivity|]; cbn; auto 10).
Qed.

(** DynamoDBList returns nil and the error of a failed scan, else the
    decoded rows of the whole table. *)
Lemma DynamoDBList_result (st : World) :
  exists st',
    DynamoDBList st
    = (Done (match scanError st (tableName (srv st)) with
             | Some e => (None, Some e)
             | None =>
                 decodedRows
                   (scanItems st {| dynamodb.FilterExpression := None;
                                    dynamodb.ProjectionExpression := None;
                                    dynamodb.ScanTableName := tableName (srv st) |})
             end), st') /\
    srv st' = srv st /\ tables st' = tables st /\ w st' = w st /\
    network st' = tl (network st) /\
    (scanError st (tableName (srv st)) = None ->
     forall e,
       snd (decodedRows
              (scanItems st {| dynamodb.FilterExpression := None;
                               dynamodb.ProjectionExpression := None;
                               dynamodb.ScanTableName := tableName (srv st) |})) = Some e ->
       In (LogrusError "Failed to unmarshal DynamoDB record" e) (logs st')).
Proof.
  unfold DynamoDBList. unfold bind at 1. unfold getServer.
  match goal with
  | |- context [bind (Scan ?i) ?k st] =>
      destruct (Scan_result i st) as (st1 & HS & Hs & Ht & Hw & Hl & Hn & Hc);
      rewrite (@bind_Done _ _ _ _ _ _ _ HS)
  end.
  cbn [dynamodb.ScanTableName dynamodb.Items] in *.
  destruct (scanError st (tableName (srv st))) as [e|] eqn:Ee.
  - unfold_go. cbn. eexists. split; [reflexivity|]. cbn.
    repeat (split; [assumption|]). discriminate.
  - unfold decodedRows.
    destruct (dynamodbattribute.UnmarshalListOfMaps _ (Some [])) as [obj [e|]];
      unfold_go; cbn; (eexists; split; [reflexivity|]; cbn;
                       repeat (split; [assumption|]); intros _ e0 He0).
    + inversion He0; subst e0. rewrite Hl. apply in_or_app. right. left. reflexivity.
    + discriminate He0.
Qed.

(** DynamoDBQuery returns the decoded rows of its scan; a failed scan has no
    rows, so it returns an empty slice and no error. *)
Lemma DynamoDBQuery_result (st : World) :
  exists st',
    DynamoDBQuery st = (Done (decodedRows (scanItems st (queryInput (srv st')))), st') /\
    srv st' = (if status (srv st) =? "active" then set_active true (srv st)
               else if status (srv st) =? "inactive" then set_active false (srv st)
               else srv st) /\
    tables st' = tables st /\ w st' = w st /\
    (forall e,
        snd (decodedRows (scanItems st (queryInput (srv st')))) = Some e ->
        In (LogrusError "Failed to unmarshal query output" e) (logs st')).
Proof.
  assert (tail : forall st0 : World,
    exists st',
      (let s := srv st0 in
       let proj := ["index"; "name"; "users"; "active"] in
       let filt := buildFilter s in
       let '(expr, err) := expression.Build filt proj in
       (match err with
        | Some _ => logrusError err "Got error building expression"
        | None => ret tt
        end);;
       let params := {| dynamodb.FilterExpression := expression.Filter expr;
                        dynamodb.ProjectionExpression := expression.Projection expr;
                        dynamodb.ScanTableName := tableName s |} in
       let obj := Some [] in
       '(result, err) <- Scan params;;
       (match err with
        | Some _ => logrusError err "Query API call failed"
        | None => ret tt
        end);;
       let '(obj, err) := dynamodbattribute.UnmarshalListOfMaps (dynamodb.Items result) obj in
       match err with
       | Some _ =>
           logrusError err "Failed to unmarshal query output";;
           ret (None, err)
       | None => ret (obj, None)
       end) st0
      = (Done (decodedRows (scanItems st0 (queryInput (srv st0)))), st') /\
      srv st' = srv st0 /\ tables st' = tables st0 /\ w st' = w st0 /\
      (forall e,
          snd (decodedRows (scanItems st0 (queryInput (srv st0)))) = Some e ->
          In (LogrusError "Failed to unmarshal query output" e) (logs st'))).
  { intro st0. cbv zeta. unfold queryInput.
    destruct (expression.Build (buildFilter (srv st0)) ["index"; "name"; "users"; "active"])
      as [expr berr] eqn:EB. cbn [fst].
    set (params := {| dynamodb.FilterExpression := expression.Filter expr;
                      dynamodb.ProjectionExpression := expression.Projection expr;
                      dynamodb.ScanTableName := tableName (srv st0) |}).
    assert (pre : exists st1,
               (match berr with
                | Some _ => logrusError berr "Got error building expression"
                | None => ret tt
                end) st0 = (Done tt, st1) /\
               srv st1 = srv st0 /\ tables st1 = tables st0 /\ w st1 = w st0 /\
               network st1 = network st0).
    { destruct berr; unfold_go; cbn; eexists; (split; [reflexivity|]); cbn; auto. }
    destruct pre as (st1 & Hpre & Hs1 & Ht1 & Hw1 & Hn1).
    rewrite (@bind_Done _ _ _ _ _ _ _ Hpre).
    destruct (Scan_result params st1) as (st2 & HS & Hs & Ht & Hw & Hl & Hn & Hc).
    rewrite (@bind_Done _ _ _ _ _ _ _ HS).
    assert (Hit : scanItems st1 params = scanItems st0 params).
    { unfold scanItems. rewrite Hn1, Ht1. reflexivity. }
    cbv beta iota. cbn [dynamodb.Items].
    rewrite Hit. unfold decodedRows.
    destruct (scanError st1 (dynamodb.ScanTableName params)) as [e|];
      destruct (dynamodbattribute.UnmarshalListOfMaps (scanItems st0 params) (Some []))
        as [obj [e'|]];
      unfold_go; cbn;
      (eexists; split; [reflexivity|]; cbn;
       split; [congruence|]; split; [congruence|]; split; [congruence|];
       intros e0 He0; inversion He0; subst;
       apply in_or_app; right; left; reflexivity). }
  unfold DynamoDBQuery. unfold bind at 1. unfold getServer at 1. cbv beta iota.
  destruct (status (srv st) =? "active") eqn:Ea;
    [ apply String.eqb_eq in Ea; rewrite Ea; cbn [String.eqb Ascii.eqb Bool.eqb negb]
    | destruct (status (srv st) =? "inactive") eqn:Ei;
      [ apply String.eqb_eq in Ei; rewrite Ei; cbn [String.eqb Ascii.eqb Bool.eqb negb]
      | destruct (negb (status (srv st) =? "")) ] ];
    unfold bind at 1; unfold modifyServer, ret at 1; cbv beta iota;
    unfold bind at 1; unfold getServer at 1; cbv beta iota;
    match goal with
    | |- context [_ ?x = (Done _, _)] =>
        destruct (tail x) as (st' & Hrun & Hs & Ht & Hw & Hf)
    end;
    cbv zeta in Hrun; cbn [srv tables network calls logs w] in Hrun, Hs, Ht, Hw;
    exists st'; rewrite Hs;
    (split; [exact Hrun|]); (split; [reflexivity|]);
    (split; [exact Ht|]); (split; [exact Hw|]); exact Hf.
Qed.

(** ListHandler writes the JSON of what its helper returned: the decoded
    rows of the scan the request asks for, or nil when the unfiltered scan
    fails or a row does not decode. *)
Lemma ListHandler_result (r : http.Request) (st : World) :
  accepted RouteList r = true ->
  exists st',
    serve RouteList r st = (Done tt, st') /\
    w st' = http.Write http.newResponseWriter
              [http.Document
                 (fst (json.MarshalIndent_Items
                         (match dynamodb.FilterExpression (specScan r),
                                scanError st (http.Get (http.Query r) "tableName") with
                          | None, Some _ => None
                          | _, _ => fst (decodedRows (scanItems st (specScan r)))
                          end)))] /\
    (forall e,
        scanError st (http.Get (http.Query r) "tableName") = None ->
        snd (decodedRows (scanItems st (specScan r))) = Some e ->
        exists msg, In (LogrusError msg e) (logs st')).
Proof.
  unfold accepted. cbn [pattern verb]. intro Hacc.
  apply andb_prop in Hacc. destruct Hacc as [HP HM].
  unfold serve, handler, ListHandler. rewrite HP, HM. cbn [negb]. cbv zeta.
  unfold specScan, optName, optStatus.
  destruct (http.Get (http.Query r) "name" =? "") eqn:En;
    [ apply String.eqb_eq in En; rewrite En | ];
  (destruct (http.Get (http.Query r) "status" =? "active") eqn:Ea;
    [ apply String.eqb_eq in Ea; rewrite Ea
    | destruct (http.Get (http.Query r) "status" =? "inactive") eqn:Ei;
      [ apply String.eqb_eq in Ei; rewrite Ei | ] ]);
  cbn [String.eqb Ascii.eqb Bool.eqb negb orb andb QueryBuilder projectionFor
       dynamodb.FilterExpression];
  do 8 step; cbn [srv tables network calls logs w freshWriter name status set_name
                  set_status set_active set_tableName String.eqb Ascii.eqb Bool.eqb
                  negb orb andb];
  rewrite ?En; cbn [negb orb].
  all: match goal with
       | |- context [bind DynamoDBQuery _ ?x] =>
           destruct (DynamoDBQuery_result x) as (st2 & Hrun & Hs & Ht & Hw & Hf);
           rewrite Hs in Hrun, Hf
       | |- context [bind DynamoDBList _ ?x] =>
           destruct (DynamoDBList_result x) as (st2 & Hrun & Hs & Ht & Hw & Hn & Hf)
       end;
    rewrite (@bind_Done _ _ _ _ _ _ _ Hrun); cbv beta iota; clear Hrun;
    unfold queryInput, buildFilter, expression.Build, scanItems, scanError in *;
    cbn [srv tables network calls logs w name status active tableName
         set_active set_status set_tableName set_name
         String.eqb Ascii.eqb Bool.eqb negb andb orb fst snd
         expression.isSet expression.Filter expression.Projection
         dynamodb.FilterExpression dynamodb.ProjectionExpression
         dynamodb.ScanTableName] in *;
    rewrite ?En in *;
    cbn [negb andb orb fst snd expression.isSet expression.Filter
         expression.Projection dynamodb.FilterExpression
         dynamodb.ProjectionExpression dynamodb.ScanTableName] in *.
  all: unfold json.MarshalIndent_Items, Fprint1, modifyWriter.
  all: destruct (hd None (network st)) as [e0|];
    [| destruct (dynamodb.findTable (tables st) (http.Get (http.Query r) "tableName"))
         as [t|] ];
    try match goal with
        | |- context [decodedRows ?rows] => destruct (decodedRows rows) as [resp err]
        end;
    cbn [fst snd] in *;
    try destruct resp;
    (eexists; split; [reflexivity|]);
    cbn [srv tables network calls logs w]; rewrite Hw;
    (split; [reflexivity|]);
    intros e1 H1 H2; try discriminate H1; eexists; eauto.
Qed.

(** The rows a /list scan returns are those of the entries the request
    selects. *)
Lemma scanRows_selected (r : http.Request) (t : dynamodb.Table) :
  dynamodb.scanRows (dynamodb.FilterExpression (specScan r)) t
  = map snd (filter (fun row => selected r (dynamodb.decoded (snd row))) t).
Proof.
  unfold dynamodb.scanRows. f_equal. apply filter_ext. intros [k m]. cbn [snd].
  unfold specScan, selected, optName, optStatus. cbn [dynamodb.FilterExpression].
  destruct (http.Get (http.Query r) "name" =? "");
    destruct ((http.Get (http.Query r) "status" =? "active")
              || (http.Get (http.Query r) "status" =? "inactive"));
    cbn; rewrite ?andb_true_r; reflexivity.
Qed.

Lemma filter_map_comm {A B} (f : B -> bool) (g : A -> B) (l : list A) :
  filter f (map g l) = map g (filter (fun x => f (g x)) l).
Proof.
  induction l as [|x l IH]; cbn; [reflexivity|].
  destruct (f (g x)); cbn; rewrite IH; reflexivity.
Qed.

Lemma decodeList_all (rows : list dynamodb.AttributeMap) :
  forallb decodes rows = true ->
  dynamodbattribute.decodeList rows = (map dynamodb.decoded rows, None).
Proof.
  induction rows as [|m rows IH]; cbn; [reflexivity|].
  unfold decodes at 1. destruct (dynamodb.decodeError m); cbn; [discriminate|].
  intro H. rewrite (IH H). reflexivity.
Qed.

Lemma decodeList_bad (rows : list dynamodb.AttributeMap) :
  forallb decodes rows = false ->
  exists its e, dynamodbattribute.decodeList rows = (its, Some e).
Proof.
  induction rows as [|m rows IH]; cbn; [discriminate|].
  unfold decodes at 1. destruct (dynamodb.decodeError m) as [e|]; cbn.
  - intros _. eauto.
  - intro H. destruct (IH H) as (its & e & E). rewrite E. eauto.
Qed.

Lemma decodedRows_all (rows : list dynamodb.AttributeMap) :
  forallb decodes rows = true ->
  decodedRows rows = (Some (map dynamodb.decoded rows), None).
Proof.
  intro H. unfold decodedRows, dynamodbattribute.UnmarshalListOfMaps.
  destruct rows as [|m rows]; [reflexivity|].
  rewrite (decodeList_all _ H). reflexivity.
Qed.

Lemma decodedRows_bad (rows : list dynamodb.AttributeMap) :
  forallb decodes rows = false ->
  exists e, decodedRows rows = (None, Some e).
Proof.
  intro H. unfold decodedRows, dynamodbattribute.UnmarshalListOfMaps.
  destruct rows as [|m rows]; [discriminate H|].
  destruct (decodeList_bad _ H) as (its & e & E). rewrite E. eauto.
Qed.

(** X5: when the scan of a /list request succeeds and every row of the table
    decodes, the response is 200 with the JSON array of exactly the entries
    the request selects (all of them without a name and a valid status), in
    the order of the table. *)
Theorem list_returns_selected_rows
    (r : http.Request) (st : World) (t : dynamodb.Table) :
  accepted RouteList r = true ->
  hd None (network st) = None ->
  dynamodb.findTable (tables st) (http.Get (http.Query r) "tableName") = Some t ->
  forallb (fun row => decodes (snd row)) t = true ->
  exists st',
    serve RouteList r st = (Done tt, st') /\
    http.status (w st') = http.StatusOK /\
    http.body (w st')
    = [http.Document (json.JArray (map json.ofItem (filter (selected r) (itemsOf t))))].
Proof.
  intros Hacc Hnet Ht Hdec.
  destruct (ListHandler_result r st Hacc) as (st' & Hrun & Hw & _).
  exists st'. split; [exact Hrun|]. rewrite Hw.
  unfold scanError, scanItems. rewrite Hnet.
  change (dynamodb.ScanTableName (specScan r)) with (http.Get (http.Query r) "tableName").
  rewrite Ht. rewrite scanRows_selected.
  rewrite decodedRows_all.
  - cbn [fst]. unfold itemsOf. rewrite filter_map_comm, map_map.
    destruct (dynamodb.FilterExpression (specScan r)); split; reflexivity.
  - rewrite forallb_forall in *. intros m Hm.
    apply in_map_iff in Hm. destruct Hm as (row & E & Hin). subst m.
    apply filter_In in Hin. apply Hdec. tauto.
Qed.

Lemma list_returns_selected_rows_witness :
  exists st',
    serve RouteList
      (request "GET" "/list" [("tableName", "T"); ("status", "active")]) world0
    = (Done tt, st') /\
    http.status (w st') = http.StatusOK /\
    http.body (w st')
    = [http.Document
         (json.JArray
            (map json.ofItem
               (filter (selected (request "GET" "/list"
                                    [("tableName", "T"); ("status", "active")]))
                  (itemsOf tableT))))].
Proof.
  apply (@list_returns_selected_rows
           (request "GET" "/list" [("tableName", "T"); ("status", "active")])
           world0 tableT);
    reflexivity.
Defined.

(** X6: when the scan succeeds but one of the rows it returns does not
    decode, the whole list is dropped: the error is logged and the response
    is 200 with the body [null], on the filtered and on the unfiltered
    path. *)
Theorem list_undecodable_row_gives_null
    (r : http.Request) (st : World) (t : dynamodb.Table) :
  accepted RouteList r = true ->
  hd None (network st) = None ->
  dynamodb.findTable (tables st) (http.Get (http.Query r) "tableName") = Some t ->
  existsb (fun row => selected r (dynamodb.decoded (snd row)) && negb (decodes (snd row))) t
  = true ->
  exists st' msg e,
    serve RouteList r st = (Done tt, st') /\
    http.status (w st') = http.StatusOK /\
    http.body (w st') = [http.Document json.JNull] /\
    In (LogrusError msg e) (logs st').
Proof.
  intros Hacc Hnet Ht Hbad.
  destruct (ListHandler_result r st Hacc) as (st' & Hrun & Hw & Hlog).
  assert (Hrows : forallb decodes (scanItems st (specScan r)) = false).
  { unfold scanItems. rewrite Hnet.
    change (dynamodb.ScanTableName (specScan r)) with (http.Get (http.Query r) "tableName").
    rewrite Ht, scanRows_selected.
    apply existsb_exists in Hbad. destruct Hbad as (row & Hin & Hrow).
    apply andb_prop in Hrow. destruct Hrow as [Hsel Hno].
    destruct (forallb decodes _) eqn:E; [|reflexivity].
    rewrite forallb_forall in E.
    assert (Hd : decodes (snd row) = true).
    { apply E. apply in_map. apply filter_In. auto. }
    rewrite Hd in Hno. discriminate Hno. }
  destruct (decodedRows_bad _ Hrows) as (e & Hd).
  assert (Herr : scanError st (http.Get (http.Query r) "tableName") = None).
  { unfold scanError. rewrite Hnet, Ht. reflexivity. }
  rewrite Hd in Hw, Hlog. rewrite Herr in Hw. cbn [fst snd] in Hw, Hlog.
  destruct (Hlog e Herr eq_refl) as (msg & Hin).
  exists st', msg, e. split; [exact Hrun|]. rewrite Hw.
  destruct (dynamodb.FilterExpression (specScan r)); auto.
Qed.

Lemma list_undecodable_row_gives_null_witness :
  exists st' msg e,
    serve RouteList (request "GET" "/list" [("tableName", "V")]) world1 = (Done tt, st') /\
    http.status (w st') = http.StatusOK /\
    http.body (w st') = [http.Document json.JNull] /\
    In (LogrusError msg e) (logs st').
Proof.
  apply (@list_undecodable_row_gives_null
           (request "GET" "/list" [("tableName", "V")]) world1 tableV);
    reflexivity.
Defined.

Lemma ListHandler_keeps_index (r : http.Request) : keeps index (ListHandler r).
Proof.
  destruct (helpers_keep index (fun _ _ => eq_refl)) as (HL & HQ & _ & _).
  unfold ListHandler. keeps_all.
Qed.

(** X7: ListHandler is read-only and never panics: whatever the request and
    the state of the store, it returns normally, leaves every table as it
    was, sends no update and does not touch the index on the server. *)
Theorem list_never_writes (r : http.Request) (st : World) :
  fst (serve RouteList r st) = Done tt /\
  tables (snd (serve RouteList r st)) = tables st /\
  updates (calls (snd (serve RouteList r st))) = updates (calls st) /\
  index (srv (snd (serve RouteList r st))) = index (srv st).
Proof.
  destruct (accepted RouteList r) eqn:Hacc.
  - destruct (ListHandler_runs r st Hacc)
      as (resp & st' & Hrun & Ht & _ & _ & _ & _ & _ & Hc & _).
    rewrite Hrun. cbn [fst snd]. rewrite Ht, Hc.
    split; [reflexivity|]. split; [reflexivity|]. split.
    + unfold updates. rewrite filter_app. cbn. apply app_nil_r.
    + change (index (srv st)) with (index (srv (freshWriter st))).
      change st' with (snd (Done tt, st')). rewrite <- Hrun.
      unfold serve. apply (ListHandler_keeps_index r).
  - unfold accepted in Hacc. cbn [pattern verb] in Hacc.
    unfold serve, handler, ListHandler.
    destruct (http.Path r =? "/list"); cbn [negb];
      [destruct (http.Method r =? "GET"); [discriminate Hacc|] |];
      repeat split.
Qed.

(** ** What a handler reads of the shared server *)

Section Sim.

Variable g : Server -> Server.

Lemma sim_ret {A} (a : A) : sim g (ret a).
Proof. intro st. left. reflexivity. Qed.

Lemma sim_panic {A} (msg : string) : sim g (@panic A msg).
Proof. intro st. left. reflexivity. Qed.

Lemma sim_log e : sim g (log e).
Proof. intro st. left. reflexivity. Qed.

Lemma sim_modifyWriter f : sim g (modifyWriter f).
Proof. intro st. left. reflexivity. Qed.

Lemma sim_send c : sim g (send c).
Proof. intro st. left. reflexivity. Qed.

Lemma sim_getTables : sim g getTables.
Proof. intro st. left. reflexivity. Qed.

Lemma sim_setTables ts : sim g (setTables ts).
Proof. intro st. left. reflexivity. Qed.

Lemma sim_modifyServer (f : Server -> Server) :
  (forall s, f (g s) = g (f s)) -> sim g (modifyServer f).
Proof.
  intros H st. left. unfold modifyServer, over. cbn. rewrite H. reflexivity.
Qed.

Lemma sim_bind {A B} (m : Go A) (k : A -> Go B) :
  sim g m -> (forall a, sim g (k a)) -> sim g (bind m k).
Proof.
  intros Hm Hk st. unfold bind.
  destruct (Hm st) as [E|E]; rewrite E.
  - destruct (m st) as [[a|msg] st1]; cbn [fst snd].
    + exact (Hk a st1).
    + left. reflexivity.
  - right. reflexivity.
Qed.

Lemma sim_overwritten {A B} (m : Go A) (k : A -> Go B) :
  (forall st, m (over g st) = m st) -> sim g (bind m k).
Proof. intros Hm st. right. unfold bind. rewrite Hm. reflexivity. Qed.

Lemma sim_getServer {B} (k : Server -> Go B) :
  (forall s st, k (g s) st = k s st) -> (forall s, sim g (k s)) ->
  sim g (bind getServer k).
Proof.
  intros Hk Hs st. unfold bind, getServer. cbn.
  rewrite Hk. exact (Hs (srv st) st).
Qed.

Lemma sim_observe {A} (m : Go A) (st : World) :
  sim g m -> observe (m (over g st)) = observe (m st).
Proof. intro H. destruct (H st) as [E|E]; rewrite E; reflexivity. Qed.

End Sim.

Ltac sim_step :=
  first
    [ apply sim_ret | apply sim_panic | apply sim_log | apply sim_modifyWriter
    | apply sim_send | apply sim_getTables | apply sim_setTables
    | apply sim_overwritten; intro; reflexivity
    | apply sim_modifyServer; intro; reflexivity
    | apply sim_getServer; [intros; reflexivity | intro]
    | apply sim_bind; [|intros]
    | match goal with
      | |- sim _ (if ?c then _ else _) => destruct c
      | |- sim _ (match ?x with _ => _ end) => destruct x
      end ].

Ltac sim_all :=
  unfold ListHandler, DeactivateHandler, DynamoDBQuery, DynamoDBList,
    DynamoDBGetItem, DynamoDBDeactivate, Scan, GetItem, UpdateItem,
    httpError, Fprint, Fprint1, logrusError, Error,
    json.Marshal_string, json.MarshalIndent_Item;
  cbv zeta;
  repeat sim_step.

Lemma handler_sim_tableName (e : Route) (r : http.Request) v :
  sim (set_tableName v) (handler e r).
Proof. destruct e; cbn [handler]; sim_all. Qed.

Lemma handler_sim_name (e : Route) (r : http.Request) v :
  sim (set_name v) (handler e r).
Proof. destruct e; cbn [handler]; sim_all. Qed.

Lemma handler_sim_status (e : Route) (r : http.Request) v :
  sim (set_status v) (handler e r).
Proof. destruct e; cbn [handler]; sim_all. Qed.

Lemma handler_sim_active (e : Route) (r : http.Request) v :
  sim (set_active v) (handler e r).
Proof. destruct e; cbn [handler]; sim_all. Qed.

Lemma handler_sim_index (e : Route) (r : http.Request) v :
  sim (set_index v) (handler e r).
Proof. destruct e; cbn [handler]; sim_all. Qed.

(** X8: served one after the other, requests do not interfere through the
    shared server: whatever values earlier requests left in its table name,
    name, status, active and index fields, a request ends the same way, with
    the same response, the same store calls, the same log lines and the same
    tables. *)
Theorem handlers_ignore_leftover_fields
    (e : Route) (r : http.Request) (st : World)
    (tn n stt : string) (a : bool) (i : bytes) :
  observe (serve e r (over (leftover tn n stt a i) st)) = observe (serve e r st).
Proof.
  unfold serve, leftover.
  change (freshWriter (over (fun s => set_tableName tn
                                       (set_name n (set_status stt
                                          (set_active a (set_index i s))))) st))
    with (over (set_tableName tn)
            (over (set_name n)
               (over (set_status stt)
                  (over (set_active a) (over (set_index i) (freshWriter st)))))).
  rewrite (sim_observe _ (handler_sim_tableName e r tn)).
  rewrite (sim_observe _ (handler_sim_name e r n)).
  rewrite (sim_observe _ (handler_sim_status e r stt)).
  rewrite (sim_observe _ (handler_sim_active e r a)).
  rewrite (sim_observe _ (handler_sim_index e r i)).
  reflexivity.
Qed.

(** ** Deactivating, then listing *)

Lemma updateRow_decodes (t : dynamodb.Table) (k : bytes) (b : bool) m :
  dynamodb.findRow t k = Some m ->
  forallb (fun row => decodes (snd row)) t = true ->
  forallb (fun row => decodes (snd row)) (fst (dynamodb.updateRow t k b)) = true.
Proof.
  induction t as [|[k0 m0] rest IH]; cbn; [discriminate|].
  destruct (bytes_eqb k0 k).
  - intros _ H. exact H.
  - intros Hf H. apply andb_prop in H. destruct H as [H0 Hr].
    specialize (IH Hf Hr).
    destruct (dynamodb.updateRow rest k b) as [rest' m']. cbn in *.
    rewrite H0, IH. reflexivity.
Qed.

Lemma findRow_In (t : dynamodb.Table) (k : bytes) m :
  dynamodb.findRow t k = Some m -> In m (map snd t).
Proof.
  induction t as [|[k0 m0] rest IH]; cbn; [discriminate|].
  destruct (bytes_eqb k0 k).
  - intro H. inversion H. auto.
  - intro H. right. exact (IH H).
Qed.

(** X9: a deactivation that went through is seen by the next /list of the
    table: when the index decodes to the key of an active row, the store
    answers and the rows of the table decode, the list that follows is the
    JSON array of the selected entries of the table with that row inactive;
    it holds the deactivated entry whenever the list request selects
    it. *)
Theorem list_after_deactivate
    (r rl : http.Request) (st : World) (key : bytes)
    (t : dynamodb.Table) (m : dynamodb.AttributeMap) :
  accepted RouteDeactivate r = true ->
  (http.Get (http.Query r) "index" =? "") = false ->
  indexBytes (http.Get (http.Query r) "index") = (key, None) ->
  network st = [] ->
  dynamodb.findTable (tables st) (http.Get (http.Query r) "tableName") = Some t ->
  dynamodb.findRow t key = Some m ->
  Active (dynamodb.decoded m) = true ->
  forallb (fun row => decodes (snd row)) t = true ->
  accepted RouteList rl = true ->
  http.Get (http.Query rl) "tableName" = http.Get (http.Query r) "tableName" ->
  exists st1 st2,
    serve RouteDeactivate r st = (Done tt, st1) /\
    serve RouteList rl st1 = (Done tt, st2) /\
    http.body (w st2)
    = [http.Document
         (json.JArray
            (map json.ofItem
               (filter (selected rl)
                  (itemsOf (fst (dynamodb.updateRow t key false))))))] /\
    (selected rl (set_Active false (dynamodb.decoded m)) = true ->
     In (set_Active false (dynamodb.decoded m))
       (filter (selected rl) (itemsOf (fst (dynamodb.updateRow t key false))))).
Proof.
  intros Hacc Hidx Hkey Hnet Ht Hrow Hact Hdec Hlacc Htn.
  assert (Hit : option_map dynamodb.decoded (dynamodb.findRow t key)
                = Some (dynamodb.decoded m)) by (rewrite Hrow; reflexivity).
  assert (Hhd : hd None (network st) = None) by (rewrite Hnet; reflexivity).
  destruct (lookup_found r key st Ht Hit Hhd) as [s1 Hget].
  destruct (lookup_frame _ _ _ Hget) as (Hs1 & Ht1 & Hw1 & Hc1 & Hn1).
  rewrite Hnet in Hn1. cbn in Hn1.
  destruct (DynamoDBDeactivate_cases (atUpdate s1))
    as (resp & s2 & Hupd & Hs2 & Hw2 & Hn2 & Hc2 & Hcase).
  unfold callError in Hcase. cbn [atUpdate network tables srv] in Hcase, Hn2.
  rewrite Hn1, Hs1, Ht1 in Hcase. cbn in Hcase. rewrite Ht in Hcase.
  destruct Hcase as (t0 & Ht0 & Htabs & _). inversion Ht0; subst t0.
  rewrite Hn1 in Hn2. cbn in Hn2.
  destruct (DeactivateHandler_active_run r st Hacc Hidx Hkey Hget Hact Hupd)
    as (st1 & Hrun1 & _ & _ & Ht' & _ & Hn' & _).
  assert (Htab1 : dynamodb.findTable (tables st1) (http.Get (http.Query rl) "tableName")
                  = Some (fst (dynamodb.updateRow t key false))).
  { rewrite Ht', Htabs, Htn. eapply findTable_putTable. exact Ht. }
  assert (Hhd1 : hd None (network st1) = None) by (rewrite Hn', Hn2; reflexivity).
  destruct (ListHandler_result rl st1 Hlacc) as (st2 & Hrun2 & Hw & _).
  exists st1, st2. split; [exact Hrun1|]. split; [exact Hrun2|].
  split.
  - rewrite Hw. unfold scanError, scanItems. rewrite Hhd1.
    change (dynamodb.ScanTableName (specScan rl))
      with (http.Get (http.Query rl) "tableName").
    rewrite Htab1, scanRows_selected. rewrite decodedRows_all.
    + cbn [fst]. unfold itemsOf. rewrite filter_map_comm, map_map.
      destruct (dynamodb.FilterExpression (specScan rl)); reflexivity.
    + pose proof (@updateRow_decodes t key false m Hrow Hdec) as Hd1.
      rewrite forallb_forall in *. intros m0 Hm0.
      apply in_map_iff in Hm0. destruct Hm0 as (row & E & Hin). subst m0.
      apply filter_In in Hin. apply Hd1. tauto.
  - intro Hsel. apply filter_In. split; [|exact Hsel].
    unfold itemsOf.
    pose proof (@findRow_updateRow t key key false m Hrow) as Hfound.
    replace (bytes_eqb key key) with true in Hfound
      by (symmetry; apply bytes_eqb_true; reflexivity).
    apply findRow_In in Hfound. apply in_map_iff in Hfound.
    destruct Hfound as (row & E & Hin).
    apply in_map_iff. exists row. split; [|exact Hin]. rewrite E. reflexivity.
Qed.

Lemma list_after_deactivate_witness :
  exists st1 st2,
    serve RouteDeactivate
      (request "POST" "/deactivate" [("tableName", "T"); ("index", "QQ==")]) world0
    = (Done tt, st1) /\
    serve RouteList
      (request "GET" "/list" [("tableName", "T"); ("status", "inactive")]) st1
    = (Done tt, st2) /\
    http.body (w st2)
    = [http.Document
         (json.JArray
            (map json.ofItem
               (filter (selected (request "GET" "/list"
                                    [("tableName", "T"); ("status", "inactive")]))
                  (itemsOf (fst (dynamodb.updateRow tableT ["A"%byte] false))))))] /\
    (selected (request "GET" "/list" [("tableName", "T"); ("status", "inactive")])
       (set_Active false rowA) = true ->
     In (set_Active false rowA)
       (filter (selected (request "GET" "/list"
                            [("tableName", "T"); ("status", "inactive")]))
          (itemsOf (fst (dynamodb.updateRow tableT ["A"%byte] false))))).
Proof.
  apply (@list_after_deactivate
           (request "POST" "/deactivate" [("tableName", "T"); ("index", "QQ==")])
           (request "GET" "/list" [("tableName", "T"); ("status", "inactive")])
           world0 ["A"%byte] tableT (wellFormed rowA));
    reflexivity.
Defined.

(** ** The index as /list prints it *)

Example encode_A : StdEncoding_EncodeToString ["A"%byte] = "QQ==".
Proof. reflexivity. Qed.

Example encode_fooba :
  StdEncoding_EncodeToString ["f"; "o"; "o"; "b"; "a"]%byte = "Zm9vYmE=".
Proof. reflexivity. Qed.

Lemma readsBack_all (n : N) : (n < 64)%N -> readsBack n = true.
Proof.
  intro H.
  assert (Hall : forallb readsBack (map N.of_nat (seq 0 64)) = true)
    by (vm_compute; reflexivity).
  rewrite forallb_forall in Hall. apply Hall.
  apply in_map_iff. exists (N.to_nat n). split.
  - apply N2Nat.id.
  - apply in_seq. lia.
Qed.

Lemma sextet_lt (val k : N) : (sextet val k < 64)%N.
Proof.
  unfold sextet. change 63%N with (N.ones 6). rewrite N.land_ones.
  apply N.mod_lt. discriminate.
Qed.

Lemma testbit_small (a n i : N) : (a < 2 ^ n)%N -> (n <= i)%N -> N.testbit a i = false.
Proof.
  intros Ha Hi. rewrite <- (N.mod_small a (2 ^ n)) by exact Ha.
  apply N.mod_pow2_bits_high. exact Hi.
Qed.

Lemma testbit_sextet (val k j : N) :
  N.testbit (sextet val k) j = N.testbit val (j + k) && (j <? 6)%N.
Proof.
  unfold sextet. rewrite N.land_spec, N.shiftr_spec'.
  change 63%N with (N.ones 6).
  destruct (j <? 6)%N eqn:E.
  - apply N.ltb_lt in E. rewrite N.ones_spec_low by exact E. reflexivity.
  - apply N.ltb_ge in E. rewrite N.ones_spec_high by exact E. reflexivity.
Qed.

Lemma testbit_shiftl (a k i : N) :
  N.testbit (N.shiftl a k) i = (k <=? i)%N && N.testbit a (i - k).
Proof.
  destruct (k <=? i)%N eqn:E.
  - apply N.leb_le in E. rewrite N.shiftl_spec_high' by exact E. reflexivity.
  - apply N.leb_gt in E. rewrite N.shiftl_spec_low by exact E. reflexivity.
Qed.

(** The four sextets of a 24-bit value hold the value. *)
Lemma quantum_sextets (val : N) :
  (val < 2 ^ 24)%N ->
  base64.quantum (sextet val 18) (sextet val 12) (sextet val 6) (sextet val 0) = val.
Proof.
  intro Hval. apply N.bits_inj. intro i. unfold base64.quantum.
  rewrite !N.lor_spec, !testbit_shiftl, !testbit_sextet.
  rewrite N.add_0_r.
  destruct (24 <=? i)%N eqn:E24.
  - apply N.leb_le in E24. rewrite (@testbit_small val 24 i Hval E24).
    replace (18 <=? i)%N with true by (symmetry; apply N.leb_le; lia).
    replace (12 <=? i)%N with true by (symmetry; apply N.leb_le; lia).
    replace (6 <=? i)%N with true by (symmetry; apply N.leb_le; lia).
    replace (i - 18 <? 6)%N with false by (symmetry; apply N.ltb_ge; lia).
    replace (i - 12 <? 6)%N with false by (symmetry; apply N.ltb_ge; lia).
    replace (i - 6 <? 6)%N with false by (symmetry; apply N.ltb_ge; lia).
    replace (i <? 6)%N with false by (symmetry; apply N.ltb_ge; lia).
    rewrite !andb_false_r. reflexivity.
  - apply N.leb_gt in E24.
    destruct (18 <=? i)%N eqn:E18; [apply N.leb_le in E18 | apply N.leb_gt in E18].
    + replace (i - 18 + 18)%N with i by lia.
      replace (12 <=? i)%N with true by (symmetry; apply N.leb_le; lia).
      replace (6 <=? i)%N with true by (symmetry; apply N.leb_le; lia).
      replace (i - 18 <? 6)%N with true by (symmetry; apply N.ltb_lt; lia).
      replace (i - 12 <? 6)%N with false by (symmetry; apply N.ltb_ge; lia).
      replace (i - 6 <? 6)%N with false by (symmetry; apply N.ltb_ge; lia).
      replace (i <? 6)%N with false by (symmetry; apply N.ltb_ge; lia).
      cbn [andb]. rewrite !andb_false_r, !andb_true_r, !orb_false_r. reflexivity.
    + destruct (12 <=? i)%N eqn:E12; [apply N.leb_le in E12 | apply N.leb_gt in E12].
      * replace (i - 12 + 12)%N with i by lia.
        replace (6 <=? i)%N with true by (symmetry; apply N.leb_le; lia).
        replace (i - 12 <? 6)%N with true by (symmetry; apply N.ltb_lt; lia).
        replace (i - 6 <? 6)%N with false by (symmetry; apply N.ltb_ge; lia).
        replace (i <? 6)%N with false by (symmetry; apply N.ltb_ge; lia).
        cbn [andb orb]. rewrite !andb_false_r, !andb_true_r, !orb_false_r. reflexivity.
      * destruct (6 <=? i)%N eqn:E6; [apply N.leb_le in E6 | apply N.leb_gt in E6].
        -- replace (i - 6 + 6)%N with i by lia.
           replace (i - 6 <? 6)%N with true by (symmetry; apply N.ltb_lt; lia).
           replace (i <? 6)%N with false by (symmetry; apply N.ltb_ge; lia).
           cbn [andb orb]. rewrite !andb_false_r, !andb_true_r, !orb_false_r. reflexivity.
        -- replace (i <? 6)%N with true by (symmetry; apply N.ltb_lt; lia).
           cbn [andb orb]. rewrite !andb_true_r. reflexivity.
Qed.

Lemma lt_pow2_of_bits (x n : N) :
  (forall i, (n <= i)%N -> N.testbit x i = false) -> (x < 2 ^ n)%N.
Proof.
  intro H. destruct (N.lt_ge_cases x (2 ^ n)) as [Hlt|Hge]; [exact Hlt|].
  assert (Hpos : (0 < x)%N).
  { apply N.lt_le_trans with (2 ^ n)%N; [|exact Hge].
    apply N.neq_0_lt_0. apply N.pow_nonzero. discriminate. }
  apply N.log2_le_pow2 in Hge; [|exact Hpos].
  specialize (H (N.log2 x) Hge).
  rewrite N.bit_log2 in H by (apply N.neq_0_lt_0; exact Hpos). discriminate H.
Qed.

Lemma testbit_pack (a b c i : N) :
  N.testbit (pack a b c) i
  = ((16 <=? i)%N && N.testbit a (i - 16))
    || ((8 <=? i)%N && N.testbit b (i - 8))
    || N.testbit c i.
Proof. unfold pack. rewrite !N.lor_spec, !testbit_shiftl. reflexivity. Qed.

Lemma testbit_octet (x k i : N) :
  N.testbit (N.shiftr x k mod 256) i = N.testbit x (i + k) && (i <? 8)%N.
Proof.
  change 256%N with (2 ^ 8)%N.
  destruct (i <? 8)%N eqn:E.
  - apply N.ltb_lt in E. rewrite N.mod_pow2_bits_low by exact E.
    rewrite N.shiftr_spec', andb_true_r. reflexivity.
  - apply N.ltb_ge in E. rewrite N.mod_pow2_bits_high by exact E.
    rewrite andb_false_r. reflexivity.
Qed.

Section Pack.

Variables a b c : N.
Hypothesis Ha : (a < 2 ^ 8)%N.
Hypothesis Hb : (b < 2 ^ 8)%N.
Hypothesis Hc : (c < 2 ^ 8)%N.

Lemma pack_lt : (pack a b c < 2 ^ 24)%N.
Proof.
  apply lt_pow2_of_bits. intros i Hi. rewrite testbit_pack.
  rewrite (@testbit_small a 8 (i - 16)) by (assumption || lia).
  rewrite (@testbit_small b 8 (i - 8)) by (assumption || lia).
  rewrite (@testbit_small c 8 i) by (assumption || lia).
  rewrite !andb_false_r. reflexivity.
Qed.

Lemma pack_octet_16 : (N.shiftr (pack a b c) 16 mod 256 = a)%N.
Proof.
  apply N.bits_inj. intro i. rewrite testbit_octet, testbit_pack.
  replace (16 <=? i + 16)%N with true by (symmetry; apply N.leb_le; lia).
  replace (8 <=? i + 16)%N with true by (symmetry; apply N.leb_le; lia).
  replace (i + 16 - 16)%N with i by lia.
  rewrite (@testbit_small b 8 (i + 16 - 8)) by (assumption || lia).
  rewrite (@testbit_small c 8 (i + 16)) by (assumption || lia).
  cbn [andb orb]. rewrite !orb_false_r.
  destruct (i <? 8)%N eqn:E; [apply andb_true_r|].
  apply N.ltb_ge in E. rewrite (@testbit_small a 8 i) by assumption. reflexivity.
Qed.

Lemma pack_octet_8 : (N.shiftr (pack a b c) 8 mod 256 = b)%N.
Proof.
  apply N.bits_inj. intro i. rewrite testbit_octet, testbit_pack.
  replace (8 <=? i + 8)%N with true by (symmetry; apply N.leb_le; lia).
  replace (i + 8 - 8)%N with i by lia.
  rewrite (@testbit_small c 8 (i + 8)) by (assumption || lia).
  cbn [andb]. rewrite !orb_false_r.
  destruct (i <? 8)%N eqn:E.
  - apply N.ltb_lt in E.
    replace (16 <=? i + 8)%N with false by (symmetry; apply N.leb_gt; lia).
    cbn [andb orb]. apply andb_true_r.
  - apply N.ltb_ge in E. rewrite andb_false_r.
    rewrite (@testbit_small b 8 i) by assumption. reflexivity.
Qed.

Lemma pack_octet_0 : (pack a b c mod 256 = c)%N.
Proof.
  rewrite <- (N.shiftr_0_r (pack a b c)).
  apply N.bits_inj. intro i. rewrite testbit_octet, testbit_pack.
  rewrite N.add_0_r.
  destruct (i <? 8)%N eqn:E.
  - apply N.ltb_lt in E.
    replace (16 <=? i)%N with false by (symmetry; apply N.leb_gt; lia).
    replace (8 <=? i)%N with false by (symmetry; apply N.leb_gt; lia).
    cbn [andb orb]. apply andb_true_r.
  - apply N.ltb_ge in E. rewrite andb_false_r.
    rewrite (@testbit_small c 8 i) by assumption. reflexivity.
Qed.

End Pack.

Lemma sextet_low_0 (a b : N) : sextet (pack a b 0) 0 = 0%N.
Proof.
  apply N.bits_inj. intro i. rewrite testbit_sextet, testbit_pack, N.bits_0.
  rewrite N.add_0_r.
  destruct (i <? 6)%N eqn:E; [|apply andb_false_r].
  apply N.ltb_lt in E.
  replace (16 <=? i)%N with false by (symmetry; apply N.leb_gt; lia).
  replace (8 <=? i)%N with false by (symmetry; apply N.leb_gt; lia).
  reflexivity.
Qed.

Lemma sextet_mid_0 (a : N) : sextet (pack a 0 0) 6 = 0%N.
Proof.
  apply N.bits_inj. intro i. rewrite testbit_sextet, testbit_pack, !N.bits_0.
  destruct (i <? 6)%N eqn:E; [|apply andb_false_r].
  apply N.ltb_lt in E.
  replace (16 <=? i + 6)%N with false by (symmetry; apply N.leb_gt; lia).
  rewrite !andb_false_r. reflexivity.
Qed.

Lemma to_N_lt (x : byte) : (Byte.to_N x < 2 ^ 8)%N.
Proof. pose proof (Byte.to_N_bounded x). change (2 ^ 8)%N with 256%N. lia. Qed.

Lemma byteOf_octet (n : N) (x : byte) :
  (n mod 256 = Byte.to_N x)%N -> base64.byteOf n = x.
Proof. intro H. unfold base64.byteOf. rewrite H, Byte.of_to_N. reflexivity. Qed.

Lemma three_step_ind {A} (P : list A -> Prop) :
  P [] -> (forall a, P [a]) -> (forall a b, P [a; b]) ->
  (forall a b c l, P l -> P (a :: b :: c :: l)) ->
  forall l, P l.
Proof.
  intros H0 H1 H2 H3 l.
  assert (H : P l /\ (forall a, P (a :: l)) /\ (forall a b, P (a :: b :: l))).
  { induction l as [|x l (IH0 & IH1 & IH2)].
    - auto.
    - split; [apply IH1|]. split; [intro; apply IH2|]. intros a b. apply H3. exact IH0. }
  apply H.
Qed.

(** A character of the alphabet is read back as its value, and is neither
    padding nor a line break. *)
Lemma decodeMap_encodeStd (n : N) :
  (n < 64)%N ->
  base64.decodeMap (encodeStd n) = Some n /\
  base64.isPad (encodeStd n) = false /\
  base64.isNewline (encodeStd n) = false.
Proof.
  intro H. pose proof (readsBack_all H) as R. unfold readsBack in R.
  apply andb_prop in R. destruct R as [R Rn].
  apply andb_prop in R. destruct R as [Rd Rp].
  destruct (base64.decodeMap (encodeStd n)) as [m|]; [|discriminate Rd].
  apply N.eqb_eq in Rd. subst m.
  destruct (base64.isPad (encodeStd n)); [discriminate Rp|].
  destruct (base64.isNewline (encodeStd n)); [discriminate Rn|]. auto.
Qed.

Lemma encodeQuanta_no_newline (b : bytes) :
  filter (fun c => negb (base64.isNewline c)) (encodeQuanta b) = encodeQuanta b.
Proof.
  induction b as [| x | x y | x y z l IH] using three_step_ind;
    cbn [encodeQuanta filter];
    repeat match goal with
           | |- context [base64.isNewline (encodeStd (sextet ?v ?k))] =>
               rewrite (proj2 (proj2 (decodeMap_encodeStd (sextet_lt v k))))
           end;
    cbn; rewrite ?IH; reflexivity.
Qed.

Lemma decodeQuanta_encodeQuanta (b : bytes) :
  base64.decodeQuanta (encodeQuanta b) = Some b.
Proof.
  induction b as [| x | x y | x y z l IH] using three_step_ind.
  - reflexivity.
  - cbn [encodeQuanta]. set (val := pack (Byte.to_N x) 0 0).
    cbn [base64.decodeQuanta].
    rewrite !(proj1 (decodeMap_encodeStd (sextet_lt val _))).
    change (base64.isPad "="%char) with true. cbv iota.
    replace (base64.quantum (sextet val 18) (sextet val 12) 0 0)
      with (base64.quantum (sextet val 18) (sextet val 12) (sextet val 6) (sextet val 0))
      by (unfold val at 3 4; rewrite sextet_mid_0, sextet_low_0; reflexivity).
    rewrite quantum_sextets by (apply pack_lt; first [apply to_N_lt | reflexivity]).
    unfold base64.out0.
    rewrite (@byteOf_octet _ x); [reflexivity|].
    apply pack_octet_16; first [apply to_N_lt | reflexivity].
  - cbn [encodeQuanta]. set (val := pack (Byte.to_N x) (Byte.to_N y) 0).
    cbn [base64.decodeQuanta].
    rewrite !(proj1 (decodeMap_encodeStd (sextet_lt val _))).
    rewrite (proj1 (proj2 (decodeMap_encodeStd (sextet_lt val 6)))).
    change (base64.isPad "="%char) with true. cbv iota zeta.
    replace (base64.quantum (sextet val 18) (sextet val 12) (sextet val 6) 0)
      with (base64.quantum (sextet val 18) (sextet val 12) (sextet val 6) (sextet val 0))
      by (unfold val at 4; rewrite sextet_low_0; reflexivity).
    rewrite quantum_sextets by (apply pack_lt; first [apply to_N_lt | reflexivity]).
    unfold base64.out0, base64.out1.
    rewrite (@byteOf_octet _ x), (@byteOf_octet _ y); [reflexivity| |].
    + apply pack_octet_8; first [apply to_N_lt | reflexivity].
    + apply pack_octet_16; first [apply to_N_lt | reflexivity].
  - cbn [encodeQuanta].
    set (val := pack (Byte.to_N x) (Byte.to_N y) (Byte.to_N z)).
    cbn [base64.decodeQuanta].
    rewrite !(proj1 (decodeMap_encodeStd (sextet_lt val _))).
    rewrite (proj1 (proj2 (decodeMap_encodeStd (sextet_lt val 6)))).
    rewrite (proj1 (proj2 (decodeMap_encodeStd (sextet_lt val 0)))).
    cbv iota zeta. rewrite IH.
    rewrite quantum_sextets by (apply pack_lt; apply to_N_lt).
    unfold base64.out0, base64.out1, base64.out2.
    rewrite (@byteOf_octet _ x), (@byteOf_octet _ y), (@byteOf_octet _ z);
      [reflexivity| | |].
    + rewrite <- (N.shiftr_0_r val) at 1. rewrite N.shiftr_0_r.
      apply pack_octet_0; apply to_N_lt.
    + apply pack_octet_8; apply to_N_lt.
    + apply pack_octet_16; apply to_N_lt.
Qed.

Lemma indexBytes_encode (key : bytes) :
  indexBytes (StdEncoding_EncodeToString key) = (key, None).
Proof.
  unfold indexBytes, json.Marshal_string, json.Unmarshal_bytes,
    base64.StdEncoding_Decode, StdEncoding_EncodeToString. cbn [fst].
  rewrite list_ascii_of_string_of_list_ascii, encodeQuanta_no_newline,
    decodeQuanta_encodeQuanta. reflexivity.
Qed.

(** X10: the base64 text that encoding/json prints for an Index, as in the
    bodies of /list and /deactivate, is mapped back to the same bytes by the
    JSON round trip of DeactivateHandler, for every key; and it is the empty
    string only for the empty key. *)
Theorem index_text_round_trip (key : bytes) :
  indexBytes (StdEncoding_EncodeToString key) = (key, None) /\
  (StdEncoding_EncodeToString key =? "")
  = match key with [] => true | _ :: _ => false end.
Proof.
  split.
  - apply indexBytes_encode.
  - unfold StdEncoding_EncodeToString.
    destruct key as [|x [|y [|z rest]]]; reflexivity.
Qed.

(** X11: the index that /list shows for a row deactivates that row: when the
    index parameter is the base64 text of the key of an active row and the
    store answers, the request sets the row's [active] to false and answers
    with the success message and the row. *)
Theorem deactivate_by_listed_index
    (r : http.Request) (st : World) (key : bytes)
    (t : dynamodb.Table) (m : dynamodb.AttributeMap) :
  accepted RouteDeactivate r = true ->
  http.Get (http.Query r) "index" = StdEncoding_EncodeToString key ->
  0 < List.length key ->
  network st = [] ->
  dynamodb.findTable (tables st) (http.Get (http.Query r) "tableName") = Some t ->
  dynamodb.findRow t key = Some m ->
  Active (dynamodb.decoded m) = true ->
  exists st',
    serve RouteDeactivate r st = (Done tt, st') /\
    http.status (w st') = http.StatusOK /\
    http.body (w st') =
      [http.Text deactivated;
       http.Document (json.ofItem (set_Active false (dynamodb.decoded m)))] /\
    rowAt (tables st') (http.Get (http.Query r) "tableName") key
    = Some (dynamodb.setActive false m).
Proof.
  intros Hacc Hidx Hlen Hnet Ht Hrow Hact.
  pose proof (indexBytes_encode key) as Hkey.
  rewrite <- Hidx in Hkey.
  assert (Hnonempty : (http.Get (http.Query r) "index" =? "") = false).
  { rewrite Hidx. unfold StdEncoding_EncodeToString.
    destruct key as [|x [|y [|z rest]]]; [cbn in Hlen; lia | reflexivity ..]. }
  assert (Hit : option_map dynamodb.decoded (dynamodb.findRow t key)
                = Some (dynamodb.decoded m)) by (rewrite Hrow; reflexivity).
  assert (Hhd : hd None (network st) = None) by (rewrite Hnet; reflexivity).
  destruct (lookup_found r key st Ht Hit Hhd) as [s1 Hget].
  destruct (lookup_frame _ _ _ Hget) as (Hs1 & Ht1 & Hw1 & Hc1 & Hn1).
  rewrite Hnet in Hn1. cbn in Hn1.
  destruct (DynamoDBDeactivate_cases (atUpdate s1))
    as (resp & s2 & Hupd & Hs2 & Hw2 & Hn2 & Hc2 & Hcase).
  unfold callError in Hcase. cbn [atUpdate network tables srv w] in Hcase, Hw2.
  rewrite Hn1, Hs1, Ht1 in Hcase. cbn in Hcase. rewrite Ht in Hcase.
  destruct Hcase as (t0 & Ht0 & Htabs & Hresp). inversion Ht0; subst t0.
  destruct (@updateRow_found t key false m Hrow) as [Hsnd _].
  rewrite Hsnd in Hresp. cbn in Hresp.
  destruct (DeactivateHandler_active_run r st Hacc Hnonempty Hkey Hget Hact Hupd)
    as (st' & Hrun & _ & _ & Ht' & _ & _ & Hw').
  exists st'. split; [exact Hrun|]. rewrite Hw', Hw2, Hw1, Hresp.
  split; [reflexivity|]. split; [reflexivity|].
  rewrite Ht', Htabs. rewrite (@rowAt_putTable _ _ _ key _ _ Ht).
  rewrite String.eqb_refl.
  rewrite (@findRow_updateRow t key key false m Hrow).
  replace (bytes_eqb key key) with true by (symmetry; apply bytes_eqb_true; reflexivity).
  reflexivity.
Qed.

Lemma deactivate_by_listed_index_witness :
  exists st',
    serve RouteDeactivate
      (request "POST" "/deactivate" [("tableName", "T"); ("index", "QQ==")]) world0
    = (Done tt, st') /\
    http.status (w st') = http.StatusOK /\
    http.body (w st') =
      [http.Text deactivated; http.Document (json.ofItem (set_Active false rowA))] /\
    rowAt (tables st') "T" ["A"%byte] = Some (dynamodb.setActive false (wellFormed rowA)).
Proof.
  apply (@deactivate_by_listed_index
           (request "POST" "/deactivate" [("tableName", "T"); ("index", "QQ==")])
           world0 ["A"%byte] tableT (wellFormed rowA));
    first [reflexivity | cbn; lia].
Defined.

(** ** The two scan helpers on a failed scan *)

(** X12: the two helpers treat a failed scan differently.  DynamoDBList
    returns a nil slice together with the error; DynamoDBQuery only logs the
    error and returns an empty slice with a nil error, so its caller cannot
    tell a failed scan from a scan without rows. *)
Theorem helpers_differ_on_scan_failure (st : World) (e : string) :
  scanError st (tableName (srv st)) = Some e ->
  fst (DynamoDBList st) = Done (None, Some e) /\
  fst (DynamoDBQuery st) = Done (Some [], None).
Proof.
  intro Herr. split.
  - destruct (DynamoDBList_result st) as (st' & Hrun & _).
    rewrite Hrun, Herr. reflexivity.
  - destruct (DynamoDBQuery_returns st) as (resp & err & st' & Hrun & _ & _ & _ & _ & Hf).
    destruct (Hf e Herr) as (Hr & He & _). rewrite Hrun, Hr, He. reflexivity.
Qed.

Lemma helpers_differ_on_scan_failure_witness :
  fst (DynamoDBList (over (set_tableName "U") world0))
  = Done (None, Some ResourceNotFound) /\
  fst (DynamoDBQuery (over (set_tableName "U") world0)) = Done (Some [], None).
Proof.
  apply (@helpers_differ_on_scan_failure (over (set_tableName "U") world0)
           ResourceNotFound).
  reflexivity.
Defined.

(** ** DeactivateHandler: the calls it sends *)

(** X13: a deactivate request, however it ends, sends no update at all, or
    exactly a GetItem followed by one UpdateItem for the same table and key;
    and it sends the update only for a row that was in the table and
    active: it never creates a row. *)
Theorem deactivate_updates_only_active_rows (r : http.Request) (st : World) :
  updates (calls (snd (serve RouteDeactivate r st))) = updates (calls st) \/
  (calls (snd (serve RouteDeactivate r st))
   = (calls st ++
      [lookupCall r (fst (indexBytes (http.Get (http.Query r) "index")));
       updateCall r (fst (indexBytes (http.Get (http.Query r) "index")))])%list /\
   exists m,
     rowAt (tables st) (http.Get (http.Query r) "tableName")
       (fst (indexBytes (http.Get (http.Query r) "index"))) = Some m /\
     Active (dynamodb.decoded m) = true).
Proof.
  destruct (accepted RouteDeactivate r) eqn:Hacc.
  - destruct (http.Get (http.Query r) "index" =? "") eqn:Hidx.
    + left. unfold accepted in Hacc. cbn [pattern verb] in Hacc.
      apply andb_prop in Hacc. destruct Hacc as [HP HM].
      unfold serve, handler, DeactivateHandler. rewrite HP, HM, Hidx. reflexivity.
    + destruct (indexBytes (http.Get (http.Query r) "index")) as [key [e|]] eqn:Hkey.
      * left. unfold accepted in Hacc. cbn [pattern verb] in Hacc.
        apply andb_prop in Hacc. destruct Hacc as [HP HM].
        unfold indexBytes, json.Marshal_string in Hkey. cbn [fst] in Hkey.
        unfold serve, handler, DeactivateHandler. rewrite HP, HM, Hidx.
        unfold json.Marshal_string. rewrite Hkey. reflexivity.
      * cbn [fst].
        destruct (DynamoDBGetItem_returns (atLookup r key st))
          as (it & st1 & Hget & _).
        destruct (Active it) eqn:Hact.
        -- right.
           destruct (lookup_active _ Hget Hact) as (t & m & Hft & Hfr & Hm).
           cbn in Hft, Hfr.
           destruct (DeactivateHandler_active r st Hacc Hidx Hkey Hget Hact)
             as (resp & st' & Hrun & Hc & _).
           rewrite Hrun. split; [exact Hc|].
           exists m. unfold rowAt. rewrite Hft, Hfr, Hm. auto.
        -- left.
           destruct (DeactivateHandler_inactive r st Hacc Hidx Hkey Hget Hact)
             as (st' & Hrun & _ & Hu & _).
           rewrite Hrun. exact Hu.
  - left. unfold accepted in Hacc. cbn [pattern verb] in Hacc.
    unfold serve, handler, DeactivateHandler.
    destruct (http.Path r =? "/deactivate"); cbn [negb];
      [destruct (http.Method r =? "POST"); [discriminate Hacc|] |]; reflexivity.
Qed.
